(** * Verification bot: registry, pending-verification tracker and handlers

    A shallow embedding of [bot.py].  The two module-level dictionaries
    ([nickname_role_db], [pending_verifications]) and the backing file
    [nickname_roles.json] form the store; every handler is a computation in a
    state-and-exception monad over that store.  Calls that leave the process
    (sending a direct message, assigning roles, answering an interaction,
    writing the file) are recorded in a journal and may raise, as decided by
    an explicit [world]. *)

From Stdlib Require Import ZArith String Ascii DecimalString DecimalPos.
From stdpp Require Import base option list gmap strings fin_maps.

Set Warnings "-register-all,-clear-no-such-hyp".
Local Open Scope string_scope.
Local Open Scope list_scope.
Local Open Scope Z_scope.

(** ** The Python runtime pieces the program relies on

    A Python [str] is modelled as a [string] whose characters are the code
    points U+0000..U+00FF; the character classes below are CPython's,
    restricted to that range. *)
Module Py.

(** [str.isspace] on one character: TAB..CR, FS..US, SPACE, NEL, NBSP. *)
Definition is_space (c : ascii) : bool :=
  let n := N_of_ascii c in
  ((9 <=? n) && (n <=? 13) || (28 <=? n) && (n <=? 32)
   || (n =? 133) || (n =? 160))%N.

(** [str.lstrip()] *)
Fixpoint lstrip (s : string) : string :=
  match s with
  | EmptyString => EmptyString
  | String c s' => if is_space c then lstrip s' else s
  end.

(** [str.rstrip()] *)
Fixpoint rstrip (s : string) : string :=
  match s with
  | EmptyString => EmptyString
  | String c s' =>
      match rstrip s' with
      | EmptyString => if is_space c then EmptyString else String c EmptyString
      | r => String c r
      end
  end.

(** [str.strip()] *)
Definition strip (s : string) : string := rstrip (lstrip s).

(** All characters of [s] satisfy [p]. *)
Fixpoint all_chars (p : ascii -> bool) (s : string) : bool :=
  match s with
  | EmptyString => true
  | String c s' => p c && all_chars p s'
  end.

(** A character accepted by [int()]: the decimal digits 0..9. *)
Definition is_decimal (c : ascii) : bool :=
  let n := N_of_ascii c in ((48 <=? n) && (n <=? 57))%N.

(** A character accepted by [str.isdigit]: the decimal digits and the
    superscripts U+00B2, U+00B3, U+00B9. *)
Definition is_digit (c : ascii) : bool :=
  let n := N_of_ascii c in
  (is_decimal c || (n =? 178) || (n =? 179) || (n =? 185))%N.

(** [str.isdigit()]: at least one character, all of them digits. *)
Definition isdigit (s : string) : bool :=
  match s with
  | EmptyString => false
  | _ => all_chars is_digit s
  end.

(** [str(n)] for an integer; the integers of the program are role ids and
    parsed numbers, below the interpreter's digit limit. *)
Definition str_of_int (z : Z) : string := NilZero.string_of_int (Z.to_int z).

(** [str(b)] for a boolean. *)
Definition str_of_bool (b : bool) : string := if b then "True" else "False".

(** Value of a string of decimal digits, most significant first. *)
Fixpoint decimal_value (acc : Z) (s : string) : Z :=
  match s with
  | EmptyString => acc
  | String c s' => decimal_value (10 * acc + (Z.of_N (N_of_ascii c) - 48)) s'
  end.

(** The default of [sys.int_max_str_digits] (CPython 3.11 and later). *)
Definition int_max_str_digits : nat := 4300.

(** [int(s)] on a string for which [isdigit] holds: the decimal value, or
    [None] (Python raises [ValueError]) when a character is a digit that
    is not decimal, or when the text has more digits than the
    interpreter's limit. *)
Definition int_of_str (s : string) : option Z :=
  if all_chars is_decimal s && (String.length s <=? int_max_str_digits)%nat
  then Some (decimal_value 0 s)
  else None.

End Py.

(** ** Data *)

(** The exceptions that occur in the program's control flow.
    [discord.Forbidden] is a subclass of [discord.HTTPException];
    [HTTPException] below stands for the HTTP failures that are not
    [Forbidden]. *)
Inductive exn :=
| IOError | JSONDecodeError | UnicodeDecodeError | AttributeError | ValueError
| Forbidden | HTTPException | OtherException.

Global Instance exn_eq_dec : EqDecision exn.
Proof. solve_decision. Defined.

(** What [json.load] returns.  [json.load] builds its integers with
    [int], so a number literal beyond the interpreter's digit limit never
    becomes a [JInt]: parsing it raises, which is a file in the state
    [FileRaises ValueError]. *)
Inductive json :=
| JNull
| JBool (b : bool)
| JInt (z : Z)
| JFloat (lexeme : string)
| JStr (s : string)
| JList (items : list json)
| JObject (members : list (string * json)).

(** The backing file [DATABASE_FILE] as the loader meets it: absent, present
    but opening, reading or parsing it raises, or holding a document. *)
Inductive file_state :=
| FileMissing
| FileRaises (e : exn)
| FileHolds (doc : json).

(** A role of a guild.  [role_rank] is the role's place in the guild's
    hierarchy, the total order that [discord.Role] comparison implements. *)
Record Role := { role_id : Z; role_name : string; role_rank : Z }.

Record Member := { member_id : Z; member_name : string; member_bot : bool }.

Record Guild := {
  guild_id : Z;
  guild_name : string;
  guild_roles : list Role;
  guild_members : list Member;
  guild_top_role : Role   (* guild.me.top_role *)
}.

(** The guilds the client knows. *)
Definition Discord := list Guild.

Definition get_guild (d : Discord) (gid : Z) : option Guild :=
  List.find (fun g => guild_id g =? gid) d.

Definition get_member (g : Guild) (uid : Z) : option Member :=
  List.find (fun m => member_id m =? uid) (guild_members g).

Definition get_role (g : Guild) (rid : Z) : option Role :=
  List.find (fun r => role_id r =? rid) (guild_roles g).

(** [a > b] on roles. *)
Definition role_gt (a b : Role) : bool := role_rank b <? role_rank a.

(** A message as [on_message] inspects it; [in_dm] is
    [isinstance(message.channel, discord.DMChannel)]. *)
Record Message := {
  author_id : Z;
  author_name : string;
  author_bot : bool;
  in_dm : bool;
  content : string
}.

(** The lines printed to the console, one constructor per [print]. *)
Inductive log_line :=
| LogLoaded | LogNoFile | LogLoadError (e : exn) | LogSaveError (e : exn)
| LogJoined (uid gid : Z) | LogWelcomeSent (uid : Z)
| LogDmDisabled (uid : Z) | LogDmError (uid : Z) (e : exn)
| LogNoGuildId (uid : Z) | LogGuildGone (gid uid : Z) | LogMemberGone (uid gid : Z)
| LogAttempt (nickname : string) (uid : Z)
| LogRoleTooHigh (rid : Z) | LogRoleMissing (rid : Z) (nickname : string)
| LogAssigned (names : list string) (uid : Z)
| LogLacksManageRoles | LogHttpError (e : exn) | LogUnexpected (e : exn)
| LogHierarchyOnly (uid : Z) | LogNotInDatabase (nickname : string)
| LogRemoved (uid : Z)
| LogAdmin (action nickname : string) (rid : Z).

(** The direct messages the bot sends, one constructor per text. *)
Inductive dm_text :=
| Welcome (guild : string) (uid : Z)
| NoPermissionForRole (role : string)
| VerificationSuccessful (names : list string)
| NoteRolesNotFound (ids : list string)
| LacksManageRoles
| TryAgainLater
| UnexpectedError
| NotRecognized.

(** The answers of the [/addnickname] command. *)
Inductive response :=
| NicknameEmpty
| AlreadyLinked (nickname role : string)
| LinkRecorded (action nickname role : string).

(** What the program does that is visible outside its two dictionaries.
    [Print] and [Lookup] cannot fail; [WriteFile] fails with [IOError] only;
    the others are platform calls that the world may answer with any
    exception. *)
Inductive call :=
| Print (l : log_line)
| Lookup (key : string)                      (* nickname_role_db.get(key) *)
| CreateDM (uid : Z)                         (* member.create_dm() *)
| Send (uid : Z) (m : dm_text)               (* channel.send(text) *)
| AddRoles (gid uid : Z) (roles : list Role) (reason : string)
| Respond (r : response)                     (* interaction.response.send_message *)
| WriteFile (doc : json).                    (* open(DATABASE_FILE,'w'); json.dump *)

Record event := Ev { ev_call : call; ev_raised : option exn }.

(** How an attempt to rewrite the backing file ends: the document is
    written; or the attempt raises [IOError] and leaves the file as it was
    (it could not be opened) or torn (truncated by [open(.., 'w')] and not
    completed), which no longer parses. *)
Inductive write_outcome := Written | FailedIntact | FailedTorn.

(** The environment: whether a platform call raises and how a file write
    ends, given everything that happened before. *)
Record world := {
  raises : list event -> call -> option exn;
  writes : list event -> write_outcome
}.

(** The world in which every call returns normally. *)
Definition calm : world :=
  {| raises := fun _ _ => None; writes := fun _ => Written |}.

(** The process state: the two module-level dictionaries, the backing file
    and the journal of what was done. *)
Record store := Store {
  nickname_role_db : gmap string (list Z);
  pending_verifications : gmap Z Z;
  database_file : file_state;
  journal : list event
}.

Definition with_db (db : gmap string (list Z)) (s : store) : store :=
  Store db (pending_verifications s) (database_file s) (journal s).
Definition with_pending (p : gmap Z Z) (s : store) : store :=
  Store (nickname_role_db s) p (database_file s) (journal s).
Definition with_file (f : file_state) (s : store) : store :=
  Store (nickname_role_db s) (pending_verifications s) f (journal s).
Definition record (e : event) (s : store) : store :=
  Store (nickname_role_db s) (pending_verifications s) (database_file s)
        (journal s ++ [e]).

(** ** The state-and-exception monad *)

Inductive result (A : Type) :=
| Ret (a : A)
| Raise (e : exn).
Arguments Ret {A} a.
Arguments Raise {A} e.

Definition M (A : Type) : Type := store -> result A * store.

Global Instance M_ret : MRet M := fun A a s => (Ret a, s).
Global Instance M_bind : MBind M := fun A B f m s =>
  match m s with
  | (Ret a, s') => f a s'
  | (Raise e, s') => (Raise e, s')
  end.

Definition raise {A} (e : exn) : M A := fun s => (Raise e, s).
Definition get : M store := fun s => (Ret s, s).
Definition modify (f : store -> store) : M unit := fun s => (Ret tt, f s).

(** [try: m except e: h e] *)
Definition try_except {A} (m : M A) (h : exn -> M A) : M A := fun s =>
  match m s with
  | (Ret a, s') => (Ret a, s')
  | (Raise e, s') => h e s'
  end.

(** An effect that cannot fail. *)
Definition emit (c : call) : M unit := modify (record (Ev c None)).
Definition print (l : log_line) : M unit := emit (Print l).

(** Monadic left fold: a [for] loop threading its local variables. *)
Fixpoint for_each {A B} (body : B -> A -> M B) (acc : B) (xs : list A) : M B :=
  match xs with
  | [] => mret acc
  | x :: xs' => acc' ← body acc x; for_each body acc' xs'
  end.

(** ** Registry store: [load_database] and [save_database] *)

(** The dictionary [json.load] builds from an object: a repeated key keeps
    its last value. *)
Definition dict_of_object (members : list (string * json)) : gmap string json :=
  fold_left (fun d kv => <[kv.1 := kv.2]> d) members ∅.

(** One element of the comprehension
    [[int(r) for r in roles if isinstance(r, (int, str)) and str(r).isdigit()]]:
    [Ret None] when the filter drops [r], [Ret (Some n)] when it keeps it,
    [Raise ValueError] when [int(r)] fails.  [bool] is a subclass of [int]. *)
Definition coerce_item (r : json) : result (option Z) :=
  match r with
  | JInt z => if Py.isdigit (Py.str_of_int z) then Ret (Some z) else Ret None
  | JBool b =>
      if Py.isdigit (Py.str_of_bool b) then Ret (Some (if b then 1 else 0))
      else Ret None
  | JStr s =>
      if Py.isdigit s then
        match Py.int_of_str s with
        | Some n => Ret (Some n)
        | None => Raise ValueError
        end
      else Ret None
  | _ => Ret None
  end.

Fixpoint coerce_list (roles : list json) : result (list Z) :=
  match roles with
  | [] => Ret []
  | r :: rest =>
      match coerce_item r with
      | Raise e => Raise e
      | Ret o =>
          match coerce_list rest with
          | Raise e => Raise e
          | Ret l => Ret (match o with Some n => n :: l | None => l end)
          end
      end
  end.

(** The body of the loop over [nickname_role_db.items()]. *)
Definition coerce_value (roles : json) : result (list Z) :=
  match roles with
  | JList items => coerce_list items
  | _ => Ret []
  end.

Fixpoint coerce_entries (entries : list (string * json))
  : result (gmap string (list Z)) :=
  match entries with
  | [] => Ret ∅
  | (nickname, roles) :: rest =>
      match coerce_value roles with
      | Raise e => Raise e
      | Ret l =>
          match coerce_entries rest with
          | Raise e => Raise e
          | Ret db => Ret (<[nickname := l]> db)
          end
      end
  end.

(** What the [try] block of [load_database] does with the parsed document:
    calling [.items()] on anything but a dictionary raises
    [AttributeError]. *)
Definition coerce_document (doc : json) : result (gmap string (list Z)) :=
  match doc with
  | JObject members => coerce_entries (map_to_list (dict_of_object members))
  | _ => Raise AttributeError
  end.

(** The [try] statement that is the body of [load_database]. *)
Definition load_attempt : M unit :=
  try_except
    (s ← get;
     match database_file s with
     | FileMissing =>
         modify (with_db ∅);; print LogNoFile
     | FileRaises e => raise e
     | FileHolds doc =>
         match coerce_document doc with
         | Raise e => raise e
         | Ret db => modify (with_db db);; print LogLoaded
         end
     end)
    (fun e =>
       match e with
       | JSONDecodeError | IOError =>
           print (LogLoadError e);; modify (with_db ∅)
       | _ => raise e
       end).

(** [load_database]: the store it leaves when it returns, or the exception
    that escapes it.  When an exception escapes, line 46 has already
    rebound [nickname_role_db] to the parsed document and the loop has
    overwritten the keys it visited, so the name no longer holds a
    registry: no store is given for that outcome. *)
Definition load_database (s : store) : result store :=
  match load_attempt s with
  | (Ret _, s') => Ret s'
  | (Raise e, _) => Raise e
  end.

(** The document [json.dump] writes. *)
Definition dump (db : gmap string (list Z)) : json :=
  JObject ((fun kv => (kv.1, JList (JInt <$> kv.2))) <$> map_to_list db).

Section Handlers.

Variable w : world.

(** A call the world may answer with an exception; it is journalled with
    its outcome. *)
Definition perform (c : call) : M unit := fun s =>
  let o := raises w (journal s) c in
  (match o with None => Ret tt | Some e => Raise e end, record (Ev c o) s).

(** [with open(DATABASE_FILE, 'w') as f: json.dump(.., f)] *)
Definition write_file (doc : json) : M unit := fun s =>
  match writes w (journal s) with
  | Written =>
      (Ret tt, record (Ev (WriteFile doc) None) (with_file (FileHolds doc) s))
  | FailedIntact =>
      (Raise IOError, record (Ev (WriteFile doc) (Some IOError)) s)
  | FailedTorn =>
      (Raise IOError,
       record (Ev (WriteFile doc) (Some IOError))
         (with_file (FileRaises JSONDecodeError) s))
  end.

(** [save_database] *)
Definition save_database : M unit :=
  try_except
    (s ← get; write_file (dump (nickname_role_db s)))
    (fun e =>
       match e with
       | IOError => print (LogSaveError e)
       | _ => raise e
       end).

(** ** Join handler *)

(** [pending_verifications[user_id] = guild_id] *)
Definition begin_verification (user_id guild_id : Z) : M unit :=
  modify (fun s => with_pending (<[user_id := guild_id]> (pending_verifications s)) s).

(** [del pending_verifications[user_id]] *)
Definition del_pending (user_id : Z) : M unit :=
  modify (fun s => with_pending (delete user_id (pending_verifications s)) s).

(** [on_member_join] *)
Definition on_member_join (member : Member) (guild : Guild) : M unit :=
  print (LogJoined (member_id member) (guild_id guild));;
  if member_bot member then mret tt
  else
    begin_verification (member_id member) (guild_id guild);;
    try_except
      (perform (CreateDM (member_id member));;
       perform (Send (member_id member)
                  (Welcome (guild_name guild) (member_id member)));;
       print (LogWelcomeSent (member_id member)))
      (fun e =>
         match e with
         | Forbidden => print (LogDmDisabled (member_id member))
         | _ => print (LogDmError (member_id member) e)
         end).

(** ** Reply handler *)

(** The outcome of a verification attempt, named after the branch of
    [on_message] that was taken.  [UnexpectedFailure] is the
    [except Exception] branch; [NothingReported] is the fall-through
    when no role could be added and some role id was not found. *)
Inductive classification :=
| Success | NotFound | PermissionDenied | TransientFailure
| UnexpectedFailure | HierarchyBlocked | NothingReported.

(** Where [on_message] left.  The Python handler returns [None] on every
    path; the value only names the path. *)
Inductive path :=
| NotAReply                       (* author is a bot, not a DM, or not pending *)
| NoGuildId                       (* the stored guild id is falsy *)
| GuildGone
| MemberGone
| Classified (c : classification).

(** One iteration of [for role_id in roles_to_assign_ids], threading
    [(roles_to_add_objects, not_found_role_ids)]. *)
Definition resolve_role (guild : Guild) (user_id : Z) (nickname_attempt : string)
    (acc : list Role * list string) (role_id : Z) : M (list Role * list string) :=
  match get_role guild role_id with
  | Some role =>
      if role_gt (guild_top_role guild) role then
        mret (acc.1 ++ [role], acc.2)
      else
        print (LogRoleTooHigh (role_id));;
        perform (Send user_id (NoPermissionForRole (role_name role)));;
        mret acc
  | None =>
      print (LogRoleMissing role_id nickname_attempt);;
      mret (acc.1, acc.2 ++ [Py.str_of_int role_id])
  end.

(** The [try] statement around [member.add_roles]. *)
Definition assign_roles (guild : Guild) (member : Member) (user_id : Z)
    (nickname_attempt : string) (roles_to_add_objects : list Role)
    (not_found_role_ids : list string) : M classification :=
  try_except
    (perform (AddRoles (guild_id guild) (member_id member) roles_to_add_objects
                ("Verified via nickname: " +:+ nickname_attempt));;
     let assigned_roles_names := role_name <$> roles_to_add_objects in
     print (LogAssigned assigned_roles_names (member_id member));;
     perform (Send user_id (VerificationSuccessful assigned_roles_names));;
     match not_found_role_ids with
     | [] => mret tt
     | _ => perform (Send user_id (NoteRolesNotFound not_found_role_ids))
     end;;
     mret Success)
    (fun e =>
       match e with
       | Forbidden =>
           print LogLacksManageRoles;;
           perform (Send user_id LacksManageRoles);;
           mret PermissionDenied
       | HTTPException =>
           print (LogHttpError e);;
           perform (Send user_id TryAgainLater);;
           mret TransientFailure
       | _ =>
           print (LogUnexpected e);;
           perform (Send user_id UnexpectedError);;
           mret UnexpectedFailure
       end).

(** The nickname lookup and role assignment, lines 155-215. *)
Definition verify (guild : Guild) (member : Member) (user_id : Z)
    (message : Message) : M classification :=
  let nickname_attempt := Py.strip (content message) in
  print (LogAttempt nickname_attempt user_id);;
  s ← get;
  emit (Lookup nickname_attempt);;
  match nickname_role_db s !! nickname_attempt with
  | Some ((_ :: _) as roles_to_assign_ids) =>
      acc ← for_each (resolve_role guild user_id nickname_attempt)
               ([], []) roles_to_assign_ids;
      match acc.1, acc.2 with
      | _ :: _, _ =>
          assign_roles guild member user_id nickname_attempt acc.1 acc.2
      | [], [] =>
          print (LogHierarchyOnly (member_id member));;
          mret HierarchyBlocked
      | [], _ :: _ => mret NothingReported
      end
  | _ =>
      print (LogNotInDatabase nickname_attempt);;
      perform (Send user_id NotRecognized);;
      mret NotFound
  end.

(** [on_message] *)
Definition on_message (discord : Discord) (message : Message) : M path :=
  if author_bot message then mret NotAReply
  else
    s ← get;
    match in_dm message, pending_verifications s !! author_id message with
    | true, Some guild_id =>
        let user_id := author_id message in
        if guild_id =? 0 then
          print (LogNoGuildId user_id);; mret NoGuildId
        else
          match get_guild discord guild_id with
          | None =>
              print (LogGuildGone guild_id user_id);;
              del_pending user_id;;
              mret GuildGone
          | Some guild =>
              match get_member guild user_id with
              | None =>
                  print (LogMemberGone user_id guild_id);;
                  del_pending user_id;;
                  mret MemberGone
              | Some member =>
                  c ← verify guild member user_id message;
                  s' ← get;
                  match pending_verifications s' !! user_id with
                  | Some _ => del_pending user_id;; print (LogRemoved user_id)
                  | None => mret tt
                  end;;
                  mret (Classified c)
              end
          end
    | _, _ => mret NotAReply
    end.

(** ** Admin registration: [/addnickname] *)

(** [add_nickname]; [role] is the [discord.Role] the command received. *)
Definition add_nickname (admin : string) (nickname : string) (role : Role) : M unit :=
  let nickname_clean := Py.strip nickname in
  let role_id := role_id role in
  match nickname_clean with
  | EmptyString => perform (Respond NicknameEmpty)
  | _ =>
      s ← get;
      let db := nickname_role_db s in
      match db !! nickname_clean with
      | Some ids =>
          if bool_decide (role_id ∈ ids) then
            perform (Respond (AlreadyLinked nickname_clean (role_name role)))
          else
            modify (with_db (<[nickname_clean := ids ++ [role_id]]> db));;
            save_database;;
            print (LogAdmin "updated" nickname_clean role_id);;
            perform (Respond (LinkRecorded "updated" nickname_clean (role_name role)))
      | None =>
          modify (with_db (<[nickname_clean := [role_id]]> db));;
          save_database;;
          print (LogAdmin "added" nickname_clean role_id);;
          perform (Respond (LinkRecorded "added" nickname_clean (role_name role)))
      end
  end.

End Handlers.


(** ** Observations on journals and stores *)

(** The role lists of the [add_roles] calls issued, in order. *)
Definition role_assignments (evs : list event) : list (list Role) :=
  omap (fun e => match ev_call e with
                 | AddRoles _ _ roles _ => Some roles
                 | _ => None
                 end) evs.

(** The direct messages whose [send] was attempted. *)
Definition messages (evs : list event) : list dm_text :=
  omap (fun e => match ev_call e with Send _ m => Some m | _ => None end) evs.

(** The registry keys looked up. *)
Definition lookups (evs : list event) : list string :=
  omap (fun e => match ev_call e with Lookup k => Some k | _ => None end) evs.

(** The documents handed to the persistence call. *)
Definition file_writes (evs : list event) : list json :=
  omap (fun e => match ev_call e with WriteFile d => Some d | _ => None end) evs.

(** The answers given to the admin. *)
Definition responses (evs : list event) : list response :=
  omap (fun e => match ev_call e with Respond r => Some r | _ => None end) evs.

(** [s'] differs from [s] by the journal entries [evs] only. *)
Definition journalled (s : store) (evs : list event) : store :=
  Store (nickname_role_db s) (pending_verifications s) (database_file s)
        (journal s ++ evs).

(** A computation that touches nothing but the journal. *)
Definition journal_only {A} (m : M A) : Prop :=
  forall s, exists evs, (m s).2 = journalled s evs.

(** The five outcomes of the verification state machine. *)
Definition terminal (c : classification) : bool :=
  match c with
  | Success | NotFound | PermissionDenied | TransientFailure | HierarchyBlocked => true
  | UnexpectedFailure | NothingReported => false
  end.

(** ** Trimming, as a relation *)

Fixpoint ends_with_space (s : string) : bool :=
  match s with
  | EmptyString => false
  | String c EmptyString => Py.is_space c
  | String _ s' => ends_with_space s'
  end.

Definition starts_with_space (s : string) : bool :=
  match s with
  | EmptyString => false
  | String c _ => Py.is_space c
  end.

(** [t] is [s] without its surrounding whitespace, and nothing else is
    removed. *)
Definition trimmed (s t : string) : Prop :=
  exists pre post,
    s = pre +:+ t +:+ post
    /\ Py.all_chars Py.is_space pre = true
    /\ Py.all_chars Py.is_space post = true
    /\ starts_with_space t = false
    /\ ends_with_space t = false.

(** ** Grant resolution, as the specification words it *)

(** The grants of [ids] that the platform still holds, in registered order. *)
Definition resolved (guild : Guild) (ids : list Z) : list Role :=
  omap (get_role guild) ids.

(** The grants the acting account may give: its rank is strictly above. *)
Definition assignable (guild : Guild) (ids : list Z) : list Role :=
  List.filter (fun r => role_rank r <? role_rank (guild_top_role guild))
    (resolved guild ids).

(** The grants equal or senior to the acting account's rank. *)
Definition unassignable_by_hierarchy (guild : Guild) (ids : list Z) : list Role :=
  List.filter (fun r => role_rank (guild_top_role guild) <=? role_rank r)
    (resolved guild ids).

(** The grant-ids in the registry that no longer exist on the platform. *)
Definition unknown_removed (guild : Guild) (ids : list Z) : list Z :=
  List.filter (fun rid => match get_role guild rid with None => true | Some _ => false end) ids.

(** ** The registry invariant and the reachable states *)

(** A grant-id appears at most once in every identifier's list. *)
Definition registry_nodup (db : gmap string (list Z)) : Prop :=
  forall nickname ids, db !! nickname = Some ids -> NoDup ids.

(** The stored document, when there is one that loads, holds no grant-id
    twice under an identifier once coerced. *)
Definition file_nodup (f : file_state) : Prop :=
  match f with
  | FileHolds doc => forall db, coerce_document doc = Ret db -> registry_nodup db
  | _ => True
  end.

(** The process starts with empty dictionaries and whatever file it finds. *)
Definition boot (f : file_state) : store := Store ∅ ∅ f [].

(** One event of the process: a load that returns (at start-up or on
    [on_ready]), or a handler run to its end, normal or exceptional. *)
Inductive step : store -> store -> Prop :=
| step_load s s' :
    load_database s = Ret s' -> step s s'
| step_join w member guild s r s' :
    on_member_join w member guild s = (r, s') -> step s s'
| step_message w discord message s r s' :
    on_message w discord message s = (r, s') -> step s s'
| step_register w admin nickname role s r s' :
    add_nickname w admin nickname role s = (r, s') -> step s s'.

Definition reachable (f : file_state) (s : store) : Prop := rtc step (boot f) s.

(** ** Further notions used in the statements *)

(** The conditions under which [on_message] reaches the nickname lookup. *)
Record reply_context (discord : Discord) (message : Message) (s : store)
    (gid : Z) (guild : Guild) (member : Member) : Prop := {
  ctx_human : author_bot message = false;
  ctx_dm : in_dm message = true;
  ctx_pending : pending_verifications s !! author_id message = Some gid;
  ctx_gid : gid <> 0;
  ctx_guild : get_guild discord gid = Some guild;
  ctx_member : get_member guild (author_id message) = Some member
}.

(** The events that precede the answer on the not-found path. *)
Definition not_found_prefix (nickname : string) (uid : Z) : list event :=
  [Ev (Print (LogAttempt nickname uid)) None;
   Ev (Lookup nickname) None;
   Ev (Print (LogNotInDatabase nickname)) None].

(** The hierarchy notices attempted, by role name. *)
Definition hierarchy_notices (evs : list event) : list string :=
  omap (fun e => match ev_call e with
                 | Send _ (NoPermissionForRole name) => Some name
                 | _ => None
                 end) evs.

(** Every hierarchy notice to [uid] is delivered. *)
Definition notices_delivered (w : world) (uid : Z) : Prop :=
  forall tr name, raises w tr (Send uid (NoPermissionForRole name)) = None.

(** What one iteration of the loop journals when its notice is delivered. *)
Definition resolution_events (guild : Guild) (uid : Z) (nickname : string)
    (rid : Z) : list event :=
  match get_role guild rid with
  | Some role =>
      if role_gt (guild_top_role guild) role then []
      else [Ev (Print (LogRoleTooHigh rid)) None;
            Ev (Send uid (NoPermissionForRole (role_name role))) None]
  | None => [Ev (Print (LogRoleMissing rid nickname)) None]
  end.

(** A computation that leaves the registry and the file alone. *)
Definition keeps_registry {A} (m : M A) : Prop :=
  forall s,
    nickname_role_db (m s).2 = nickname_role_db s
    /\ database_file (m s).2 = database_file s.

(** The registry and the stored document hold no grant-id twice. *)
Definition sound (s : store) : Prop :=
  registry_nodup (nickname_role_db s) /\ file_nodup (database_file s).

(** ** Notions used in the further properties *)

(** Every platform call returns normally. *)
Definition all_calls_return (w : world) : Prop :=
  forall tr c, raises w tr c = None.

(** Every direct message to [uid] is delivered. *)
Definition sends_delivered (w : world) (uid : Z) : Prop :=
  forall tr m, raises w tr (Send uid m) = None.

(** Every [add_roles] call raises [e]. *)
Definition assignment_raises (w : world) (e : exn) : Prop :=
  forall tr gid uid roles reason, raises w tr (AddRoles gid uid roles reason) = Some e.

(** The direct messages that were delivered, each with its recipient. *)
Definition deliveries (evs : list event) : list (Z * dm_text) :=
  omap (fun e => match ev_call e, ev_raised e with
                 | Send uid m, None => Some (uid, m)
                 | _, _ => None
                 end) evs.

(** The [add_roles] calls that returned: guild, member, roles and audit
    reason. *)
Definition assignments (evs : list event) : list (Z * Z * list Role * string) :=
  omap (fun e => match ev_call e, ev_raised e with
                 | AddRoles gid uid roles reason, None => Some (gid, uid, roles, reason)
                 | _, _ => None
                 end) evs.

(** The classification and the answer that the [except] clauses around
    [add_roles] attach to an exception. *)
Definition failure_class (e : exn) : classification :=
  match e with
  | Forbidden => PermissionDenied
  | HTTPException => TransientFailure
  | _ => UnexpectedFailure
  end.

Definition failure_message (e : exn) : dm_text :=
  match e with
  | Forbidden => LacksManageRoles
  | HTTPException => TryAgainLater
  | _ => UnexpectedError
  end.

Definition failure_log (e : exn) : log_line :=
  match e with
  | Forbidden => LogLacksManageRoles
  | HTTPException => LogHttpError e
  | _ => LogUnexpected e
  end.

(** A backing file on which [load_database] returns. *)
Definition file_loadable (f : file_state) : Prop :=
  match f with
  | FileMissing => True
  | FileRaises e => e = JSONDecodeError \/ e = IOError
  | FileHolds doc => exists db, coerce_document doc = Ret db
  end.

(** No pending entry stores the guild id 0. *)
Definition tracker_nonzero (s : store) : Prop :=
  forall u g, pending_verifications s !! u = Some g -> g <> 0.

(** Worlds used in the examples: the platform refuses every role
    assignment; every write of the file fails and tears it. *)
Definition refusing : world :=
  {| raises := fun _ c => match c with
                          | AddRoles _ _ _ _ => Some Forbidden
                          | _ => None
                          end;
     writes := fun _ => Written |}.

(** The user cannot be reached: every direct message raises. *)
Definition muted : world :=
  {| raises := fun _ c => match c with
                          | Send _ _ => Some Forbidden
                          | _ => None
                          end;
     writes := fun _ => Written |}.

Definition tearing : world :=
  {| raises := fun _ _ => None; writes := fun _ => FailedTorn |}.

(** ** A small guild used in the examples

    The bot's top role has rank 5; "Admiral" (id 10) is senior to it,
    "Pilot" (id 20) is junior, and no role has id 99. *)
Module Nest.

Definition admiral : Role := {| role_id := 10; role_name := "Admiral"; role_rank := 9 |}.
Definition pilot : Role := {| role_id := 20; role_name := "Pilot"; role_rank := 2 |}.
Definition ann : Member := {| member_id := 7; member_name := "ann"; member_bot := false |}.

Definition guild : Guild :=
  {| guild_id := 500; guild_name := "Nest";
     guild_roles := [admiral; pilot];
     guild_members := [ann];
     guild_top_role := {| role_id := 30; role_name := "Verifier"; role_rank := 5 |} |}.

(** Ann is pending for the guild; "Falcon" and "Ghost" are registered. *)
Definition start : store :=
  Store {[ "Falcon" := [10; 20]; "Ghost" := [99] ]} {[ 7 := 500 ]} FileMissing [].

(** A direct message from Ann. *)
Definition reply (text : string) : Message :=
  {| author_id := 7; author_name := "ann"; author_bot := false;
     in_dm := true; content := text |}.

End Nest.

(** * Properties *)

(** ** The runtime pieces on examples *)

Example strip_falcon : Py.strip "  Falcon
" = "Falcon".
Proof. reflexivity. Qed.

Example str_of_int_99 : Py.str_of_int 99 = "99".
Proof. reflexivity. Qed.

Example str_of_int_neg : Py.isdigit (Py.str_of_int (-5)) = false.
Proof. reflexivity. Qed.

Example int_of_str_007 : Py.int_of_str "007" = Some 7.
Proof. reflexivity. Qed.

(** ** Trimming *)

Lemma app_String (c : ascii) (a b : string) : String c a +:+ b = String c (a +:+ b).
Proof. reflexivity. Qed.

Lemma app_empty (b : string) : EmptyString +:+ b = b.
Proof. reflexivity. Qed.

Lemma lstrip_spec (s : string) :
  exists pre,
    s = pre +:+ Py.lstrip s
    /\ Py.all_chars Py.is_space pre = true
    /\ starts_with_space (Py.lstrip s) = false.
Proof.
  induction s as [|c s IH]; simpl.
  - exists EmptyString. auto.
  - destruct (Py.is_space c) eqn:Hc.
    + destruct IH as (pre & Heq & Hpre & Hstart).
      exists (String c pre). simpl. rewrite Hc, Hpre, app_String, <- Heq. auto.
    + exists EmptyString. simpl. auto.
Qed.

Lemma rstrip_spec (s : string) :
  exists post,
    s = Py.rstrip s +:+ post
    /\ Py.all_chars Py.is_space post = true
    /\ ends_with_space (Py.rstrip s) = false.
Proof.
  induction s as [|c s IH]; simpl.
  - exists EmptyString. auto.
  - destruct IH as (post & Heq & Hpost & Hend).
    destruct (Py.rstrip s) as [|c' r] eqn:Hr.
    + rewrite app_empty in Heq. subst post.
      destruct (Py.is_space c) eqn:Hc.
      * exists (String c s). simpl. rewrite Hc, Hpost. auto.
      * exists s. simpl. auto.
    + exists post. rewrite app_String, <- Heq. auto.
Qed.

Lemma rstrip_keeps_start (s : string) :
  starts_with_space s = false -> starts_with_space (Py.rstrip s) = false.
Proof.
  destruct s as [|c s]; simpl; [done|].
  intros Hc. destruct (Py.rstrip s); [rewrite Hc|]; done.
Qed.

Lemma strip_trimmed (s : string) : trimmed s (Py.strip s).
Proof.
  destruct (lstrip_spec s) as (pre & Hs & Hpre & Hstart).
  destruct (rstrip_spec (Py.lstrip s)) as (post & Hl & Hpost & Hend).
  exists pre, post. unfold Py.strip.
  split; [by rewrite <- Hl | auto using rstrip_keeps_start].
Qed.

(** A string without surrounding whitespace is left as it is. *)
Lemma strip_fixed (t : string) :
  starts_with_space t = false -> ends_with_space t = false -> Py.strip t = t.
Proof.
  intros Hstart Hend. unfold Py.strip.
  assert (Py.lstrip t = t) as -> by (destruct t; simpl in *; [done | by rewrite Hstart]).
  clear Hstart. induction t as [|c t IH]; [done|].
  simpl. destruct t as [|c' t].
  - simpl in *. by rewrite Hend.
  - rewrite IH by done. done.
Qed.

(** ** Computations that only extend the journal *)

Lemma journalled_nil (s : store) : journalled s [] = s.
Proof. destruct s. unfold journalled. simpl. by rewrite app_nil_r. Qed.

Lemma journalled_app (s : store) (a b : list event) :
  journalled (journalled s a) b = journalled s (a ++ b).
Proof. unfold journalled. simpl. by rewrite app_assoc. Qed.

Lemma record_journalled (e : event) (s : store) : record e s = journalled s [e].
Proof. reflexivity. Qed.

Lemma journal_only_ret {A} (a : A) : journal_only (mret a).
Proof. intros s. exists []. simpl. by rewrite journalled_nil. Qed.

Lemma journal_only_raise {A} (e : exn) : journal_only (@raise A e).
Proof. intros s. exists []. simpl. by rewrite journalled_nil. Qed.

Lemma journal_only_get : journal_only get.
Proof. intros s. exists []. simpl. by rewrite journalled_nil. Qed.

Lemma journal_only_bind {A B} (m : M A) (f : A -> M B) :
  journal_only m -> (forall a, journal_only (f a)) -> journal_only (m ≫= f).
Proof.
  intros Hm Hf s. unfold mbind, M_bind.
  destruct (Hm s) as [evs Hevs]. destruct (m s) as [[a|e] s1]; simpl in *.
  - destruct (Hf a s1) as [evs' Hevs']. exists (evs ++ evs').
    by rewrite Hevs', Hevs, journalled_app.
  - by exists evs.
Qed.

Lemma journal_only_try {A} (m : M A) (h : exn -> M A) :
  journal_only m -> (forall e, journal_only (h e)) -> journal_only (try_except m h).
Proof.
  intros Hm Hh s. unfold try_except.
  destruct (Hm s) as [evs Hevs]. destruct (m s) as [[a|e] s1]; simpl in *.
  - by exists evs.
  - destruct (Hh e s1) as [evs' Hevs']. exists (evs ++ evs').
    by rewrite Hevs', Hevs, journalled_app.
Qed.

Lemma journal_only_emit (c : call) : journal_only (emit c).
Proof. intros s. by exists [Ev c None]. Qed.

Lemma journal_only_print (l : log_line) : journal_only (print l).
Proof. apply journal_only_emit. Qed.

Lemma journal_only_perform (w : world) (c : call) : journal_only (perform w c).
Proof. intros s. by exists [Ev c (raises w (journal s) c)]. Qed.

Lemma journal_only_for_each {A B} (body : B -> A -> M B) (xs : list A) :
  (forall acc x, journal_only (body acc x)) ->
  forall acc, journal_only (for_each body acc xs).
Proof.
  intros Hbody. induction xs as [|x xs IH]; intros acc; simpl.
  - apply journal_only_ret.
  - apply journal_only_bind; auto.
Qed.

Create HintDb journal discriminated.
#[export] Hint Resolve journal_only_ret journal_only_raise journal_only_get
  journal_only_emit journal_only_print journal_only_perform : journal.

Ltac journal_only :=
  repeat first
    [ apply journal_only_bind; [|intros ?]
    | apply journal_only_try; [|intros ?]
    | apply journal_only_for_each; intros ? ?
    | solve [auto with journal]
    | match goal with
      | |- journal_only (match ?x with _ => _ end) => destruct x
      | |- journal_only (if ?x then _ else _) => destruct x
      end ].

Lemma journal_only_resolve_role w guild user_id nickname acc role_id :
  journal_only (resolve_role w guild user_id nickname acc role_id).
Proof. unfold resolve_role. journal_only. Qed.

Lemma journal_only_assign_roles w guild member user_id nickname roles missing :
  journal_only (assign_roles w guild member user_id nickname roles missing).
Proof. unfold assign_roles. journal_only. Qed.

Lemma journal_only_verify w guild member user_id message :
  journal_only (verify w guild member user_id message).
Proof.
  unfold verify. journal_only;
    auto using journal_only_resolve_role, journal_only_assign_roles.
Qed.

(** ** The shape of a reply's processing *)

Lemma on_message_reply w discord message s gid guild member :
  reply_context discord message s gid guild member ->
  exists evs r,
    verify w guild member (author_id message) message s = (r, journalled s evs)
    /\ on_message w discord message s =
       match r with
       | Ret c =>
           (Ret (Classified c),
            Store (nickname_role_db s)
                  (delete (author_id message) (pending_verifications s))
                  (database_file s)
                  (journal s ++ evs ++ [Ev (Print (LogRemoved (author_id message))) None]))
       | Raise e => (Raise e, journalled s evs)
       end.
Proof.
  intros [Hbot Hdm Hpend Hgid Hguild Hmember].
  destruct (journal_only_verify w guild member (author_id message) message s)
    as [evs Hevs].
  destruct (verify w guild member (author_id message) message s) as [r s1] eqn:Hv.
  simpl in Hevs. subst s1. exists evs, r. split; [done|].
  unfold on_message. rewrite Hbot. unfold mbind, M_bind at 1. simpl.
  rewrite Hdm, Hpend. apply Z.eqb_neq in Hgid. rewrite Hgid, Hguild, Hmember.
  unfold mbind, M_bind. rewrite Hv. destruct r as [c|e]; [|done].
  simpl. rewrite Hpend. simpl. unfold record. simpl.
  by rewrite <- app_assoc.
Qed.

Lemma on_message_classified_inv w discord message s c s' :
  on_message w discord message s = (Ret (Classified c), s') ->
  exists gid guild member, reply_context discord message s gid guild member.
Proof.
  unfold on_message. destruct (author_bot message) eqn:Hbot; [done|].
  unfold mbind, M_bind at 1. simpl.
  destruct (in_dm message) eqn:Hdm; [|done].
  destruct (pending_verifications s !! author_id message) as [gid|] eqn:Hpend; [|done].
  destruct (gid =? 0) eqn:Hgid; [done|]. apply Z.eqb_neq in Hgid.
  destruct (get_guild discord gid) as [guild|] eqn:Hguild; [|done].
  destruct (get_member guild (author_id message)) as [member|] eqn:Hmember; [|done].
  intros _. by exists gid, guild, member.
Qed.

(** ** Claims about the reply handler *)

(** Whatever the classification, a reply that [on_message] classifies
    leaves the tracker without the author's key, the registry as it was,
    and the removal's log line at the end of the journal. *)
Lemma classified_reply_resolves_entry w discord message s c s' :
  on_message w discord message s = (Ret (Classified c), s') ->
  pending_verifications s' = delete (author_id message) (pending_verifications s)
  /\ nickname_role_db s' = nickname_role_db s
  /\ exists evs,
       journal s' =
       journal s ++ evs ++ [Ev (Print (LogRemoved (author_id message))) None].
Proof.
  intros Hrun.
  destruct (on_message_classified_inv _ _ _ _ _ _ Hrun) as (gid & guild & member & Hctx).
  destruct (on_message_reply w _ _ _ _ _ _ Hctx) as (evs & r & _ & Heq).
  rewrite Hrun in Heq. destruct r as [c'|e]; [|done].
  injection Heq as _ ->. simpl. eauto.
Qed.

(** C1. Every direct-message reply of a pending user that [on_message]
    processes to one of the five terminal classifications ends with the
    user's pending entry removed: the final tracker is the initial one
    with that single key deleted, the deletion (followed only by its log
    line) closes the journal, and peeking the user afterwards is absent. *)
Theorem pending_entry_resolved_last w discord message s c s' :
  in_dm message = true ->
  is_Some (pending_verifications s !! author_id message) ->
  on_message w discord message s = (Ret (Classified c), s') ->
  terminal c = true ->
  pending_verifications s' !! author_id message = None
  /\ pending_verifications s' = delete (author_id message) (pending_verifications s)
  /\ nickname_role_db s' = nickname_role_db s
  /\ exists evs,
       journal s' =
       journal s ++ evs ++ [Ev (Print (LogRemoved (author_id message))) None].
Proof.
  intros _ _ Hrun _.
  destruct (classified_reply_resolves_entry _ _ _ _ _ _ Hrun) as (Hpend & Hdb & Hj).
  split; [|done]. rewrite Hpend. apply lookup_delete_eq.
Qed.

Lemma pending_entry_resolved_last_witness :
  pending_verifications
    (on_message calm [Nest.guild] (Nest.reply " Falcon ") Nest.start).2 !! 7 = None.
Proof.
  refine (proj1 (pending_entry_resolved_last calm [Nest.guild]
                   (Nest.reply " Falcon ") Nest.start Success _ _ _ _ _)).
  - reflexivity.
  - by exists 500.
  - vm_compute. reflexivity.
  - reflexivity.
Defined.

(** C9. When the stored community-id of the replying user is falsy (0), the
    handler returns at once: the pending entry stays and the registry is
    not consulted.  It is the only way a reply that the handler processes
    to its end leaves the entry in place, and it cannot be taken when the
    stored community-ids are non-zero. *)
Theorem falsy_guild_id_keeps_entry w discord message s gid :
  author_bot message = false ->
  in_dm message = true ->
  pending_verifications s !! author_id message = Some gid ->
  (gid = 0 ->
   on_message w discord message s =
     (Ret NoGuildId, journalled s [Ev (Print (LogNoGuildId (author_id message))) None])
   /\ lookups [Ev (Print (LogNoGuildId (author_id message))) None] = [])
  /\ (forall p s',
        on_message w discord message s = (Ret p, s') ->
        is_Some (pending_verifications s' !! author_id message) ->
        gid = 0 /\ p = NoGuildId)
  /\ ((forall u g, pending_verifications s !! u = Some g -> g <> 0) ->
      (on_message w discord message s).1 <> Ret NoGuildId).
Proof.
  intros Hbot Hdm Hpend.
  assert (gid <> 0 -> forall p s',
            on_message w discord message s = (Ret p, s') ->
            pending_verifications s' !! author_id message = None /\ p <> NoGuildId)
    as Hother.
  { intros Hgid p s'.
    destruct (get_guild discord gid) as [guild|] eqn:Hguild.
    - destruct (get_member guild (author_id message)) as [member|] eqn:Hmember.
      + destruct (on_message_reply w discord message s gid guild member)
          as (evs & r & _ & ->); [done|].
        destruct r; [|done]. intros [= <- <-]. simpl.
        split; [apply lookup_delete_eq | done].
      + unfold on_message. rewrite Hbot. unfold mbind, M_bind at 1. simpl.
        rewrite Hdm, Hpend. apply Z.eqb_neq in Hgid. rewrite Hgid, Hguild, Hmember.
        intros [= <- <-]. simpl. split; [apply lookup_delete_eq | done].
    - unfold on_message. rewrite Hbot. unfold mbind, M_bind at 1. simpl.
      rewrite Hdm, Hpend. apply Z.eqb_neq in Hgid. rewrite Hgid, Hguild.
      intros [= <- <-]. simpl. split; [apply lookup_delete_eq | done]. }
  split; [|split].
  - intros ->. split; [|done].
    unfold on_message. rewrite Hbot. unfold mbind, M_bind at 1. simpl.
    by rewrite Hdm, Hpend.
  - intros p s' Hrun [g Hg].
    destruct (decide (gid = 0)) as [->|Hgid].
    + split; [done|]. revert Hrun.
      unfold on_message. rewrite Hbot. unfold mbind, M_bind at 1. simpl.
      rewrite Hdm, Hpend. simpl. by intros [= <- _].
    + destruct (Hother Hgid p s' Hrun) as [Hnone _]. congruence.
  - intros Hnz Hrun.
    destruct (on_message w discord message s) as [r s'] eqn:Hom. simpl in Hrun.
    subst r. by destruct (Hother (Hnz _ _ Hpend) _ _ eq_refl).
Qed.

Lemma falsy_guild_id_keeps_entry_witness :
  on_message calm [Nest.guild] (Nest.reply "Falcon")
    (Store {[ "Falcon" := [10; 20] ]} {[ 7 := 0 ]} FileMissing [])
  = (Ret NoGuildId,
     Store {[ "Falcon" := [10; 20] ]} {[ 7 := 0 ]} FileMissing
       [Ev (Print (LogNoGuildId 7)) None]).
Proof.
  refine (proj1 (proj1 (falsy_guild_id_keeps_entry calm [Nest.guild]
            (Nest.reply "Falcon")
            (Store {[ "Falcon" := [10; 20] ]} {[ 7 := 0 ]} FileMissing [])
            0 _ _ _) _)); reflexivity.
Defined.

(** C10. When the guild of the pending entry can no longer be resolved, or
    the replying user is no longer one of its members, the handler deletes
    the pending entry and returns: no registry lookup, no message to the
    user, no role assignment; only a console line is printed. *)
Theorem departed_reply_drops_entry w discord message s gid :
  author_bot message = false ->
  in_dm message = true ->
  pending_verifications s !! author_id message = Some gid ->
  gid <> 0 ->
  (get_guild discord gid = None
   \/ exists guild, get_guild discord gid = Some guild
                    /\ get_member guild (author_id message) = None) ->
  exists p evs,
    on_message w discord message s =
      (Ret p,
       Store (nickname_role_db s)
             (delete (author_id message) (pending_verifications s))
             (database_file s) (journal s ++ evs))
    /\ (p = GuildGone \/ p = MemberGone)
    /\ lookups evs = [] /\ messages evs = [] /\ role_assignments evs = []
    /\ delete (author_id message) (pending_verifications s) !! author_id message = None.
Proof.
  intros Hbot Hdm Hpend Hgid Hgone. apply Z.eqb_neq in Hgid.
  destruct Hgone as [Hguild | (guild & Hguild & Hmember)].
  - exists GuildGone, [Ev (Print (LogGuildGone gid (author_id message))) None].
    split; [|by rewrite lookup_delete_eq; auto].
    unfold on_message. rewrite Hbot. unfold mbind, M_bind at 1. simpl.
    by rewrite Hdm, Hpend, Hgid, Hguild.
  - exists MemberGone, [Ev (Print (LogMemberGone (author_id message) gid)) None].
    split; [|by rewrite lookup_delete_eq; auto].
    unfold on_message. rewrite Hbot. unfold mbind, M_bind at 1. simpl.
    by rewrite Hdm, Hpend, Hgid, Hguild, Hmember.
Qed.

Lemma departed_reply_drops_entry_witness :
  exists p evs,
    on_message calm [] (Nest.reply "Falcon") Nest.start =
      (Ret p, Store (nickname_role_db Nest.start) (delete 7 (pending_verifications Nest.start))
                FileMissing evs)
    /\ lookups evs = [].
Proof.
  destruct (departed_reply_drops_entry calm [] (Nest.reply "Falcon") Nest.start 500)
    as (p & evs & Hrun & _ & Hlook & _); [reflexivity | reflexivity | reflexivity | lia | by left |].
  exists p, evs. split; [exact Hrun | exact Hlook].
Defined.

(** ** The nickname lookup *)

Ltac run :=
  unfold mbind, M_bind, mret, M_ret, print, emit, modify, get, perform,
    try_except, raise; simpl.

Lemma verify_not_found w guild member uid message s :
  nickname_role_db s !! Py.strip (content message) = None
  \/ nickname_role_db s !! Py.strip (content message) = Some [] ->
  let nickname := Py.strip (content message) in
  let o := raises w (journal s ++ not_found_prefix nickname uid) (Send uid NotRecognized) in
  verify w guild member uid message s =
    (match o with None => Ret NotFound | Some e => Raise e end,
     journalled s (not_found_prefix nickname uid ++ [Ev (Send uid NotRecognized) o])).
Proof.
  intros Hentry. unfold verify. run.
  destruct Hentry as [-> | ->]; simpl;
    unfold record, journalled, not_found_prefix; simpl;
    repeat rewrite <- app_assoc; simpl;
    by destruct (raises w _ _).
Qed.

(** ** The resolution loop *)

Lemma assignable_cons guild rid ids :
  assignable guild (rid :: ids) =
  match get_role guild rid with
  | Some role =>
      if role_gt (guild_top_role guild) role then role :: assignable guild ids
      else assignable guild ids
  | None => assignable guild ids
  end.
Proof.
  unfold assignable, resolved, role_gt. simpl.
  destruct (get_role guild rid) as [role|]; simpl; [|done].
  by destruct (role_rank role <? _).
Qed.

Lemma unassignable_cons guild rid ids :
  unassignable_by_hierarchy guild (rid :: ids) =
  match get_role guild rid with
  | Some role =>
      if role_gt (guild_top_role guild) role then unassignable_by_hierarchy guild ids
      else role :: unassignable_by_hierarchy guild ids
  | None => unassignable_by_hierarchy guild ids
  end.
Proof.
  unfold unassignable_by_hierarchy, resolved, role_gt. simpl.
  destruct (get_role guild rid) as [role|]; simpl; [|done].
  rewrite Z.leb_antisym. by destruct (role_rank role <? _).
Qed.

Lemma unknown_removed_cons guild rid ids :
  unknown_removed guild (rid :: ids) =
  match get_role guild rid with
  | Some _ => unknown_removed guild ids
  | None => rid :: unknown_removed guild ids
  end.
Proof. unfold unknown_removed. simpl. by destruct (get_role guild rid). Qed.

Lemma resolution_loop w guild uid nickname ids :
  notices_delivered w uid ->
  forall acc s,
    for_each (resolve_role w guild uid nickname) acc ids s =
      (Ret (acc.1 ++ assignable guild ids,
            acc.2 ++ (Py.str_of_int <$> unknown_removed guild ids)),
       journalled s (flat_map (resolution_events guild uid nickname) ids)).
Proof.
  intros Hw. induction ids as [|rid ids IH]; intros [roles missing] s.
  - simpl. unfold mret, M_ret. by rewrite !app_nil_r, journalled_nil.
  - cbn [for_each flat_map]. unfold mbind, M_bind at 1.
    rewrite assignable_cons, unknown_removed_cons.
    unfold resolve_role, resolution_events at 1.
    destruct (get_role guild rid) as [role|] eqn:Hrole.
    + destruct (role_gt (guild_top_role guild) role) eqn:Hgt.
      * unfold mret, M_ret at 1. rewrite IH. simpl.
        by rewrite <- (app_assoc roles [role]).
      * run. rewrite Hw, IH. simpl.
        unfold journalled, record. simpl. rewrite Hw. by rewrite <- !app_assoc.
    + run. rewrite IH. simpl.
      unfold journalled, record. simpl. by rewrite <- !app_assoc.
Qed.

(** ** The assignment call *)

Ltac case_raises :=
  repeat match goal with
    | |- context [raises ?w ?tr ?c] =>
        let o := fresh "o" in
        destruct (raises w tr c) as [o|]; [destruct o|]; simpl
    | |- context [match ?l with [] => _ | _ :: _ => _ end] =>
        is_var l; destruct l; simpl
    end.

Lemma assign_roles_journal w guild member uid nickname roles missing s :
  exists r o evs,
    assign_roles w guild member uid nickname roles missing s =
      (r, journalled s
            (Ev (AddRoles (guild_id guild) (member_id member) roles
                   ("Verified via nickname: " +:+ nickname)) o :: evs))
    /\ role_assignments evs = []
    /\ hierarchy_notices evs = []
    /\ lookups evs = []
    /\ r <> Ret NotFound.
Proof.
  unfold assign_roles. run. unfold journalled, record. simpl.
  case_raises;
    repeat rewrite <- app_assoc; simpl;
    (do 3 eexists; split; [reflexivity | done]).
Qed.

(** ** What the resolution loop journals *)

Lemma resolution_notices guild uid nickname ids :
  hierarchy_notices (flat_map (resolution_events guild uid nickname) ids)
  = role_name <$> unassignable_by_hierarchy guild ids.
Proof.
  induction ids as [|rid ids IH]; [done|].
  cbn [flat_map]. unfold hierarchy_notices in *. rewrite omap_app, IH.
  rewrite unassignable_cons. unfold resolution_events.
  destruct (get_role guild rid) as [role|]; [|done].
  by destruct (role_gt _ _).
Qed.

Lemma resolution_messages guild uid nickname ids :
  messages (flat_map (resolution_events guild uid nickname) ids)
  = (fun r => NoPermissionForRole (role_name r)) <$> unassignable_by_hierarchy guild ids.
Proof.
  induction ids as [|rid ids IH]; [done|].
  cbn [flat_map]. unfold messages in *. rewrite omap_app, IH.
  rewrite unassignable_cons. unfold resolution_events.
  destruct (get_role guild rid) as [role|]; [|done].
  by destruct (role_gt _ _).
Qed.

Lemma resolution_silent guild uid nickname ids :
  role_assignments (flat_map (resolution_events guild uid nickname) ids) = []
  /\ lookups (flat_map (resolution_events guild uid nickname) ids) = [].
Proof.
  induction ids as [|rid ids [IH1 IH2]]; [done|].
  cbn [flat_map]. unfold role_assignments, lookups in *.
  rewrite !omap_app, IH1, IH2. unfold resolution_events.
  destruct (get_role guild rid) as [role|]; [|done].
  by destruct (role_gt _ _).
Qed.

(** [verify] on an identifier whose registry entry is a non-empty list. *)
Lemma verify_matched w guild member uid message s ids :
  notices_delivered w uid ->
  nickname_role_db s !! Py.strip (content message) = Some ids ->
  ids <> [] ->
  exists r evs,
    verify w guild member uid message s = (r, journalled s evs)
    /\ lookups evs = [Py.strip (content message)]
    /\ hierarchy_notices evs = role_name <$> unassignable_by_hierarchy guild ids
    /\ role_assignments evs =
       match assignable guild ids with [] => [] | roles => [roles] end
    /\ r <> Ret NotFound
    /\ (assignable guild ids = [] ->
        r = Ret (match unknown_removed guild ids with
                 | [] => HierarchyBlocked
                 | _ => NothingReported
                 end)
        /\ messages evs =
           (fun r => NoPermissionForRole (role_name r))
             <$> unassignable_by_hierarchy guild ids).
Proof.
  intros Hw Hentry Hne. unfold verify. run. rewrite Hentry.
  destruct ids as [|rid ids]; [done|].
  set (nickname := Py.strip (content message)).
  set (s1 := record _ (record _ s)).
  unfold mbind, M_bind.
  rewrite (resolution_loop w guild uid nickname (rid :: ids) Hw ([], []) s1).
  cbn [fst snd app].
  pose proof (resolution_notices guild uid nickname (rid :: ids)) as Hnot.
  pose proof (resolution_messages guild uid nickname (rid :: ids)) as Hmsg.
  destruct (resolution_silent guild uid nickname (rid :: ids)) as [Hadd Hlook].
  set (loop := flat_map _ (rid :: ids)) in *.
  assert (journalled s1 loop
          = journalled s ([Ev (Print (LogAttempt nickname uid)) None;
                           Ev (Lookup nickname) None] ++ loop)) as Hs1.
  { unfold s1, journalled, record. simpl. by rewrite <- !app_assoc. }
  destruct (assignable guild (rid :: ids)) as [|role roles] eqn:Hassign.
  - destruct (Py.str_of_int <$> unknown_removed guild (rid :: ids)) as [|m ms] eqn:Hunk.
    + apply fmap_nil_inv in Hunk. rewrite Hunk.
      eexists _, (_ ++ loop ++ [_]). split.
      { unfold mret, M_ret. simpl. rewrite Hs1, record_journalled, journalled_app.
        by rewrite <- app_assoc. }
      unfold lookups, hierarchy_notices, role_assignments, messages in *.
      rewrite !omap_app, Hnot, Hadd, Hlook, Hmsg. simpl.
      by rewrite !app_nil_r.
    + destruct (unknown_removed guild (rid :: ids)) as [|u us]; [done|].
      eexists _, (_ ++ loop). split.
      { unfold mret, M_ret. simpl. by rewrite Hs1. }
      unfold lookups, hierarchy_notices, role_assignments, messages in *.
      by rewrite !omap_app, Hnot, Hadd, Hlook, Hmsg.
  - destruct (assign_roles_journal w guild member uid nickname (role :: roles)
                (Py.str_of_int <$> unknown_removed guild (rid :: ids))
                (journalled s1 loop))
      as (r & o & evs & Hrun & Hadd' & Hnot' & Hlook' & Hr).
    exists r, (([Ev (Print (LogAttempt nickname uid)) None;
                 Ev (Lookup nickname) None] ++ loop)
               ++ [Ev (AddRoles (guild_id guild) (member_id member) (role :: roles)
                         ("Verified via nickname: " +:+ nickname)) o] ++ evs).
    split; [by rewrite Hrun, Hs1, journalled_app|].
    unfold lookups, hierarchy_notices, role_assignments in *.
    rewrite !omap_app, Hnot, Hadd, Hlook, Hadd', Hnot', Hlook'. simpl.
    by rewrite !app_nil_r.
Qed.

Lemma elem_of_assignable guild ids role :
  role ∈ assignable guild ids <->
  (exists rid, rid ∈ ids /\ get_role guild rid = Some role)
  /\ role_rank role < role_rank (guild_top_role guild).
Proof.
  unfold assignable, resolved.
  rewrite list_elem_of_In, filter_In, <- list_elem_of_In, list_elem_of_omap.
  by rewrite Z.ltb_lt.
Qed.

Lemma elem_of_unassignable guild ids role :
  role ∈ unassignable_by_hierarchy guild ids <->
  (exists rid, rid ∈ ids /\ get_role guild rid = Some role)
  /\ role_rank (guild_top_role guild) <= role_rank role.
Proof.
  unfold unassignable_by_hierarchy, resolved.
  rewrite list_elem_of_In, filter_In, <- list_elem_of_In, list_elem_of_omap.
  by rewrite Z.leb_le.
Qed.

(** The runs in which the hierarchy notices are delivered, so that the
    loop reaches its end.  For a matched registry entry, the loop of
    [on_message] collects in [roles_to_add_objects] exactly the roles that
    still resolve and rank strictly below the bot's top role, in
    registered order; the other resolving roles are the ones reported by a
    hierarchy notice; and the handler issues one [add_roles] call carrying
    exactly the collected roles when there is at least one, and none
    otherwise. *)
Theorem hierarchy_partition_single_assignment
    w discord message s gid guild member ids :
  reply_context discord message s gid guild member ->
  nickname_role_db s !! Py.strip (content message) = Some ids ->
  ids <> [] ->
  notices_delivered w (author_id message) ->
  (forall rid role,
      rid ∈ ids -> get_role guild rid = Some role ->
      (role ∈ assignable guild ids <->
       role_rank role < role_rank (guild_top_role guild))
      /\ (role ∈ unassignable_by_hierarchy guild ids <->
          ~ role_rank role < role_rank (guild_top_role guild)))
  /\ (forall s0,
        (for_each (resolve_role w guild (author_id message)
                     (Py.strip (content message))) ([], []) ids s0).1
        = Ret (assignable guild ids, Py.str_of_int <$> unknown_removed guild ids))
  /\ exists evs,
       journal (on_message w discord message s).2 = journal s ++ evs
       /\ hierarchy_notices evs = role_name <$> unassignable_by_hierarchy guild ids
       /\ role_assignments evs =
          match assignable guild ids with [] => [] | roles => [roles] end.
Proof.
  intros Hctx Hentry Hne Hw. split; [|split].
  - intros rid role Hin Hrole.
    rewrite elem_of_assignable, elem_of_unassignable. split.
    + split; [tauto | eauto].
    + split; [lia | intros ?; split; [eauto | lia]].
  - intros s0. by rewrite resolution_loop.
  - destruct (on_message_reply w _ _ _ _ _ _ Hctx) as (evs & r & Hv & ->).
    destruct (verify_matched w guild member (author_id message) message s ids
                Hw Hentry Hne) as (r' & evs' & Hv' & _ & Hnot & Hadd & _).
    rewrite Hv in Hv'. injection Hv' as <- Hj. apply app_inv_head in Hj as <-.
    destruct r as [c|e]; simpl.
    + exists (evs ++ [Ev (Print (LogRemoved (author_id message))) None]).
      split; [done|]. unfold hierarchy_notices, role_assignments in *.
      rewrite !omap_app, Hnot, Hadd. simpl. by rewrite !app_nil_r.
    + by exists evs.
Qed.

Lemma hierarchy_partition_single_assignment_witness :
  assignable Nest.guild [10; 20] = [Nest.pilot]
  /\ unassignable_by_hierarchy Nest.guild [10; 20] = [Nest.admiral]
  /\ exists evs,
       journal (on_message calm [Nest.guild] (Nest.reply "Falcon") Nest.start).2
       = journal Nest.start ++ evs
       /\ hierarchy_notices evs = ["Admiral"]
       /\ role_assignments evs = [[Nest.pilot]].
Proof.
  split; [reflexivity | split; [reflexivity|]].
  refine (proj2 (proj2 (hierarchy_partition_single_assignment calm [Nest.guild]
            (Nest.reply "Falcon") Nest.start 500 Nest.guild Nest.ann [10; 20]
            _ _ _ _))).
  - split; (reflexivity || lia).
  - reflexivity.
  - discriminate.
  - intros tr name. reflexivity.
Defined.

(** A matched, non-empty entry never ends in [NotFound], whatever the
    platform does. *)
Lemma verify_matched_classification w guild member uid message s ids :
  nickname_role_db s !! Py.strip (content message) = Some ids ->
  ids <> [] ->
  (verify w guild member uid message s).1 <> Ret NotFound.
Proof.
  intros Hentry Hne. unfold verify. run. rewrite Hentry.
  destruct ids as [|rid ids]; [done|].
  unfold mbind, M_bind.
  destruct (for_each _ _ _ _) as [[[roles missing]|e] s1]; [|done].
  cbn [fst snd]. destruct roles as [|role roles].
  - destruct missing; by run.
  - destruct (assign_roles_journal w guild member uid (Py.strip (content message))
                (role :: roles) missing s1) as (r & o & evs & -> & _ & _ & _ & Hr).
    done.
Qed.

(** The runs in which the "not recognized" answer is delivered.  The
    identifier is the reply with its surrounding whitespace removed and
    nothing else; it is looked up once, as a key of the registry.  When
    that key is absent or maps to the empty list, the attempt is
    classified NotFound, no role assignment is issued, and the pending
    entry is removed.  A key with a non-empty list is never classified
    NotFound. *)
Theorem unknown_identifier_not_found w discord message s gid guild member :
  reply_context discord message s gid guild member ->
  trimmed (content message) (Py.strip (content message))
  /\ (nickname_role_db s !! Py.strip (content message) = None
      \/ nickname_role_db s !! Py.strip (content message) = Some [] ->
      raises w (journal s ++ not_found_prefix (Py.strip (content message))
                               (author_id message))
        (Send (author_id message) NotRecognized) = None ->
      exists evs,
        on_message w discord message s =
          (Ret (Classified NotFound),
           Store (nickname_role_db s)
                 (delete (author_id message) (pending_verifications s))
                 (database_file s) (journal s ++ evs))
        /\ lookups evs = [Py.strip (content message)]
        /\ messages evs = [NotRecognized]
        /\ role_assignments evs = []
        /\ delete (author_id message) (pending_verifications s)
             !! author_id message = None)
  /\ (forall ids,
        nickname_role_db s !! Py.strip (content message) = Some ids ->
        ids <> [] ->
        (on_message w discord message s).1 <> Ret (Classified NotFound)).
Proof.
  intros Hctx. split; [apply strip_trimmed|].
  destruct (on_message_reply w _ _ _ _ _ _ Hctx) as (evs & r & Hv & Hrun).
  split.
  - intros Hentry Hsent.
    pose proof (verify_not_found w guild member (author_id message) message s Hentry)
      as Hnf.
    cbv zeta in Hnf. rewrite Hsent, Hv in Hnf.
    injection Hnf as -> Hj. apply app_inv_head in Hj as ->.
    eexists. split; [exact Hrun|].
    by rewrite lookup_delete_eq.
  - intros ids Hentry Hne.
    pose proof (verify_matched_classification w guild member (author_id message)
                  message s ids Hentry Hne) as Hc.
    rewrite Hv in Hc. rewrite Hrun. destruct r as [c|e]; simpl in *; congruence.
Qed.

Lemma unknown_identifier_not_found_witness :
  exists evs,
    on_message calm [Nest.guild] (Nest.reply "  Nobody ") Nest.start =
      (Ret (Classified NotFound),
       Store (nickname_role_db Nest.start) (delete 7 (pending_verifications Nest.start))
             FileMissing evs)
    /\ lookups evs = ["Nobody"].
Proof.
  destruct (unknown_identifier_not_found calm [Nest.guild] (Nest.reply "  Nobody ")
              Nest.start 500 Nest.guild Nest.ann) as (_ & Hnf & _).
  - split; (reflexivity || lia).
  - destruct Hnf as (evs & Hrun & Hlook & _).
    + left. reflexivity.
    + reflexivity.
    + exists evs. split; [exact Hrun | exact Hlook].
Defined.

(** When the "not recognized" answer cannot be delivered the exception
    leaves the handler before the clean-up: the entry stays pending. *)
Lemma undelivered_answer_keeps_entry w discord message s gid guild member e :
  reply_context discord message s gid guild member ->
  nickname_role_db s !! Py.strip (content message) = None ->
  raises w (journal s ++ not_found_prefix (Py.strip (content message))
                           (author_id message))
    (Send (author_id message) NotRecognized) = Some e ->
  exists s',
    on_message w discord message s = (Raise e, s')
    /\ pending_verifications s' !! author_id message = Some gid.
Proof.
  intros Hctx Hentry Hfail.
  destruct (on_message_reply w _ _ _ _ _ _ Hctx) as (evs & r & Hv & Hrun).
  pose proof (verify_not_found w guild member (author_id message) message s
                (or_introl Hentry)) as Hnf.
  cbv zeta in Hnf. rewrite Hfail, Hv in Hnf. injection Hnf as -> _.
  eexists. split; [exact Hrun|]. simpl. apply Hctx.
Qed.

(** C7. An identifier that no registry entry matches, when the "not
    recognized" answer cannot be delivered: the send at line 211 is
    outside any [try], so its exception leaves [on_message] before the
    clean-up of lines 218-220.  The reply "Nobody" was looked up and found
    absent, no role was assigned, and the user is still pending. *)
Theorem undelivered_not_found_leaves_pending :
  nickname_role_db Nest.start !! Py.strip "Nobody" = None
  /\ exists s',
       on_message muted [Nest.guild] (Nest.reply "Nobody") Nest.start
       = (Raise Forbidden, s')
       /\ lookups (journal s') = ["Nobody"]
       /\ role_assignments (journal s') = []
       /\ pending_verifications s' !! 7 = Some 500.
Proof.
  split; [reflexivity|]. eexists. split; [vm_compute; reflexivity|].
  repeat split; reflexivity.
Qed.

(** C3. A matched entry with an assignable role, when a hierarchy notice
    cannot be delivered: the send at line 174 is inside the loop and
    outside the [try] of line 182, so its exception leaves [on_message]
    before [add_roles] is reached.  For "Falcon" -> [10, 20] the
    assignable roles are [Pilot], yet no assignment call is issued; the
    same happens for [20, 10], where Pilot had already been collected
    when the notice for role 10 raised. *)
Theorem failed_notice_prevents_assignment :
  assignable Nest.guild [10; 20] = [Nest.pilot]
  /\ unassignable_by_hierarchy Nest.guild [10; 20] = [Nest.admiral]
  /\ (exists s',
        on_message muted [Nest.guild] (Nest.reply "Falcon") Nest.start
        = (Raise Forbidden, s')
        /\ role_assignments (journal s') = []
        /\ pending_verifications s' !! 7 = Some 500)
  /\ assignable Nest.guild [20; 10] = [Nest.pilot]
  /\ (exists s',
        on_message muted [Nest.guild] (Nest.reply "Falcon")
          (Store {[ "Falcon" := [20; 10] ]} {[ 7 := 500 ]} FileMissing [])
        = (Raise Forbidden, s')
        /\ role_assignments (journal s') = []).
Proof.
  split; [reflexivity|]. split; [reflexivity|]. split; [|split; [reflexivity|]].
  - eexists. split; [vm_compute; reflexivity|]. split; reflexivity.
  - eexists. split; [vm_compute; reflexivity|]. reflexivity.
Qed.

(** C2. The reply "Ghost", registered for the single role id 99 that the
    guild no longer has: the id is recorded as not found, no role is
    collected, no [add_roles] call is issued, the handler returns and
    removes the pending entry -- and no message at all is sent to the
    user, whatever the platform does. *)
Theorem ghost_reply_gets_no_answer (w : world) :
  unknown_removed Nest.guild [99] = [99]
  /\ assignable Nest.guild [99] = []
  /\ exists evs,
       on_message w [Nest.guild] (Nest.reply "Ghost") Nest.start =
         (Ret (Classified NothingReported),
          Store (nickname_role_db Nest.start) ∅ FileMissing evs)
       /\ evs = [Ev (Print (LogAttempt "Ghost" 7)) None;
                 Ev (Lookup "Ghost") None;
                 Ev (Print (LogRoleMissing 99 "Ghost")) None;
                 Ev (Print (LogRemoved 7)) None]
       /\ role_assignments evs = []
       /\ messages evs = [].
Proof.
  split; [reflexivity | split; [reflexivity|]].
  eexists. split; [|split; [reflexivity|]].
  - vm_compute. reflexivity.
  - split; reflexivity.
Qed.

(** The same for any guild: an entry whose only role id is unknown to the
    guild ends without any message to the user. *)
Lemma unresolved_entry_silent w discord message s gid guild member rid :
  reply_context discord message s gid guild member ->
  nickname_role_db s !! Py.strip (content message) = Some [rid] ->
  get_role guild rid = None ->
  exists evs,
    on_message w discord message s =
      (Ret (Classified NothingReported),
       Store (nickname_role_db s)
             (delete (author_id message) (pending_verifications s))
             (database_file s) (journal s ++ evs))
    /\ messages evs = [] /\ role_assignments evs = [].
Proof.
  intros Hctx Hentry Hrole.
  destruct (on_message_reply w _ _ _ _ _ _ Hctx) as (evs & r & Hv & Hrun).
  revert Hv. unfold verify. run. rewrite Hentry. simpl.
  unfold mbind, M_bind, resolve_role. rewrite Hrole. run.
  unfold record, journalled. simpl. rewrite <- !app_assoc. simpl.
  intros [= <- Hj]. apply app_inv_head in Hj as <-.
  eexists. split; [exact Hrun | done].
Qed.

(** ** Claims about the admin registration *)

(** C8. A nickname that is empty once trimmed is refused before anything
    else happens: the only effect is the "cannot be empty" answer; the
    registry, the tracker and the file are untouched and no persistence
    call is made, whatever the role. *)
Theorem empty_nickname_rejected w admin nickname role s :
  Py.strip nickname = "" ->
  exists r o,
    add_nickname w admin nickname role s =
      (r, journalled s [Ev (Respond NicknameEmpty) o])
    /\ nickname_role_db (journalled s [Ev (Respond NicknameEmpty) o])
       = nickname_role_db s
    /\ database_file (journalled s [Ev (Respond NicknameEmpty) o])
       = database_file s
    /\ file_writes [Ev (Respond NicknameEmpty) o] = [].
Proof.
  intros Hempty. unfold add_nickname. rewrite Hempty. run.
  by destruct (raises w _ _); do 2 eexists.
Qed.

Lemma empty_nickname_rejected_witness :
  exists r o,
    add_nickname calm "root" "" Nest.pilot Nest.start =
      (r, journalled Nest.start [Ev (Respond NicknameEmpty) o]).
Proof.
  destruct (empty_nickname_rejected calm "root" "" Nest.pilot Nest.start)
    as (r & o & Hrun & _); [reflexivity|].
  exists r, o. exact Hrun.
Defined.

(** What [save_database] does to a store. *)
Lemma save_database_spec w s :
  exists f evs,
    save_database w s =
      (Ret tt, Store (nickname_role_db s) (pending_verifications s) f
                 (journal s ++ evs))
    /\ file_writes evs = [dump (nickname_role_db s)]
    /\ responses evs = []
    /\ (f = FileHolds (dump (nickname_role_db s))
        \/ f = database_file s
        \/ f = FileRaises JSONDecodeError).
Proof.
  unfold save_database, write_file. run.
  destruct (writes w (journal s)); simpl;
    unfold record; simpl; rewrite <- ?app_assoc; simpl;
    (do 2 eexists; split; [reflexivity | auto]).
Qed.

(** The tail shared by the "added" and "updated" branches. *)
Lemma record_link w (action key : string) (role : Role) db' s :
  exists r f evs,
    (modify (with_db db');;
     save_database w;;
     print (LogAdmin action key (role_id role));;
     perform w (Respond (LinkRecorded action key (role_name role)))) s
    = (r, Store db' (pending_verifications s) f (journal s ++ evs))
    /\ file_writes evs = [dump db']
    /\ responses evs = [LinkRecorded action key (role_name role)]
    /\ (f = FileHolds (dump db') \/ f = database_file s
        \/ f = FileRaises JSONDecodeError).
Proof.
  unfold mbind, M_bind at 1. unfold modify at 1.
  destruct (save_database_spec w (with_db db' s))
    as (f & evs & Hsave & Hwrites & Hresp & Hf).
  unfold mbind, M_bind at 1. rewrite Hsave. run. unfold record. simpl.
  eexists _, f, (evs ++ [_; _]). rewrite <- !app_assoc. simpl.
  split; [reflexivity|].
  unfold file_writes, responses in *. rewrite !omap_app, Hwrites, Hresp. auto.
Qed.

(** C5. For a nickname that is non-empty once trimmed, [add_nickname]
    answers "added" and creates the singleton list when the trimmed key is
    absent; answers "updated" and appends the role id when the key is
    present without it; and, when the pair is already present, answers
    that nothing changed as its only effect: registry and file are as
    before and no persistence call is made.  The two changing branches
    make exactly one persistence call, with the new registry. *)
Theorem registration_outcomes w admin nickname role s :
  Py.strip nickname <> "" ->
  exists r s' evs,
    add_nickname w admin nickname role s = (r, s')
    /\ journal s' = journal s ++ evs
    /\ pending_verifications s' = pending_verifications s
    /\ match nickname_role_db s !! Py.strip nickname with
       | None =>
           nickname_role_db s'
           = <[Py.strip nickname := [role_id role]]> (nickname_role_db s)
           /\ responses evs
              = [LinkRecorded "added" (Py.strip nickname) (role_name role)]
           /\ file_writes evs = [dump (nickname_role_db s')]
       | Some ids =>
           if bool_decide (role_id role ∈ ids) then
             nickname_role_db s' = nickname_role_db s
             /\ database_file s' = database_file s
             /\ responses evs
                = [AlreadyLinked (Py.strip nickname) (role_name role)]
             /\ file_writes evs = []
             /\ length evs = 1%nat
           else
             nickname_role_db s'
             = <[Py.strip nickname := ids ++ [role_id role]]> (nickname_role_db s)
             /\ responses evs
                = [LinkRecorded "updated" (Py.strip nickname) (role_name role)]
             /\ file_writes evs = [dump (nickname_role_db s')]
       end.
Proof.
  intros Hkey. unfold add_nickname.
  destruct (Py.strip nickname) as [|c key] eqn:Hstrip; [done|].
  unfold mbind, M_bind at 1. unfold get at 1.
  destruct (nickname_role_db s !! String c key) as [ids|] eqn:Hentry.
  - destruct (bool_decide (role_id role ∈ ids)).
    + run. destruct (raises w _ _); by eexists _, _, [_].
    + destruct (record_link w "updated" (String c key) role
                  (<[String c key := ids ++ [role_id role]]> (nickname_role_db s)) s)
        as (r & f & evs & Hlink & Hwrites & Hresp & _).
      unfold mbind in Hlink. rewrite Hlink. by eexists _, _, evs.
  - destruct (record_link w "added" (String c key) role
                (<[String c key := [role_id role]]> (nickname_role_db s)) s)
      as (r & f & evs & Hlink & Hwrites & Hresp & _).
    unfold mbind in Hlink. rewrite Hlink. by eexists _, _, evs.
Qed.

Lemma registration_outcomes_witness :
  exists r s' evs,
    add_nickname calm "root" " Owl " Nest.pilot Nest.start = (r, s')
    /\ nickname_role_db s' !! "Owl" = Some [20]
    /\ responses evs = [LinkRecorded "added" "Owl" "Pilot"].
Proof.
  destruct (registration_outcomes calm "root" " Owl " Nest.pilot Nest.start)
    as (r & s' & evs & Hrun & _ & _ & Hdb & Hresp & _); [discriminate|].
  exists r, s', evs. split; [exact Hrun|]. split; [|exact Hresp].
  rewrite Hdb. reflexivity.
Defined.

(** Registering the same pair twice: "added", then nothing changes. *)
Example register_twice :
  let s1 := (add_nickname calm "root" "Owl" Nest.pilot Nest.start).2 in
  let s2 := (add_nickname calm "root" "Owl" Nest.pilot s1).2 in
  responses (journal s2)
  = [LinkRecorded "added" "Owl" "Pilot"; AlreadyLinked "Owl" "Pilot"]
  /\ nickname_role_db s2 !! "Owl" = Some [20]
  /\ file_writes (journal s2) = [dump (nickname_role_db s1)].
Proof. vm_compute. auto. Qed.

(** ** Decimal rendering of integers *)

Lemma string_of_uint_digits (d : Decimal.uint) :
  Py.all_chars Py.is_digit (NilEmpty.string_of_uint d) = true.
Proof.
  induction d; cbn [NilEmpty.string_of_uint Py.all_chars]; [done|..];
    by rewrite IHd.
Qed.

(** [str(n).isdigit()] holds exactly for the non-negative integers. *)
Lemma isdigit_str_of_int (z : Z) : Py.isdigit (Py.str_of_int z) = (0 <=? z).
Proof.
  unfold Py.str_of_int. destruct z as [|p|p]; [done| |done].
  simpl. pose proof (Unsigned.to_uint_nonnil p) as Hnil.
  pose proof (string_of_uint_digits (Pos.to_uint p)) as Hdigits.
  unfold Py.isdigit, NilZero.string_of_uint.
  destruct (Pos.to_uint p); [done|..];
    by cbn [NilEmpty.string_of_uint] in *.
Qed.

(** ** Loading the registry *)

Lemma coerce_list_raises roles e : coerce_list roles = Raise e -> e = ValueError.
Proof.
  induction roles as [|r roles IH]; simpl; [done|].
  destruct (coerce_item r) as [o|e'] eqn:Hitem.
  - destruct (coerce_list roles); [done|]. intros [= <-]. auto.
  - intros [= <-]. destruct r; simpl in Hitem; try done;
      repeat (match type of Hitem with
              | context [if ?b then _ else _] => destruct b
              | context [match ?x with Some _ => _ | None => _ end] => destruct x
              end; try done); congruence.
Qed.

Lemma coerce_value_raises v e : coerce_value v = Raise e -> e = ValueError.
Proof. destruct v; simpl; try done. apply coerce_list_raises. Qed.

Lemma coerce_entries_raises entries e :
  coerce_entries entries = Raise e -> e = ValueError.
Proof.
  induction entries as [|[k v] entries IH]; simpl; [done|].
  destruct (coerce_value v) as [l|e'] eqn:Hv.
  - destruct (coerce_entries entries); [done|]. intros [= <-]. auto.
  - intros [= <-]. eauto using coerce_value_raises.
Qed.

(** The coercion raises nothing that [load_database] catches. *)
Lemma coerce_document_raises doc e :
  coerce_document doc = Raise e -> e = AttributeError \/ e = ValueError.
Proof.
  destruct doc; simpl; try (intros [= <-]; auto).
  intros H. right. eauto using coerce_entries_raises.
Qed.

Lemma load_missing s :
  database_file s = FileMissing ->
  load_database s =
    Ret (Store ∅ (pending_verifications s) FileMissing
           (journal s ++ [Ev (Print LogNoFile) None])).
Proof.
  intros Hf. unfold load_database, load_attempt. run. rewrite Hf. simpl.
  unfold record, with_db. simpl. by rewrite Hf.
Qed.

Lemma load_caught s e :
  database_file s = FileRaises e ->
  e = JSONDecodeError \/ e = IOError ->
  load_database s =
    Ret (Store ∅ (pending_verifications s) (FileRaises e)
           (journal s ++ [Ev (Print (LogLoadError e)) None])).
Proof.
  intros Hf He. unfold load_database, load_attempt. run. rewrite Hf.
  destruct He as [-> | ->]; simpl; unfold record, with_db; simpl; by rewrite Hf.
Qed.

Lemma load_uncaught s e :
  database_file s = FileRaises e ->
  ~ (e = JSONDecodeError \/ e = IOError) ->
  load_database s = Raise e.
Proof.
  intros Hf He. unfold load_database, load_attempt. run. rewrite Hf.
  destruct e; simpl; try done; destruct He; auto.
Qed.

Lemma load_document s doc :
  database_file s = FileHolds doc ->
  load_database s =
    match coerce_document doc with
    | Ret db =>
        Ret (Store db (pending_verifications s) (FileHolds doc)
               (journal s ++ [Ev (Print LogLoaded) None]))
    | Raise e => Raise e
    end.
Proof.
  intros Hf. unfold load_database, load_attempt. run. rewrite Hf.
  destruct (coerce_document doc) as [db|e] eqn:Hdoc; simpl.
  - unfold record, with_db. simpl. by rewrite Hf.
  - by destruct (coerce_document_raises _ _ Hdoc) as [-> | ->].
Qed.

(** The registry that the coercion of a list of entries with distinct keys
    returns: each key maps to the coercion of its value. *)
Lemma coerce_entries_lookup entries db :
  NoDup entries.*1 ->
  coerce_entries entries = Ret db ->
  forall k l,
    db !! k = Some l <-> exists v, (k, v) ∈ entries /\ coerce_value v = Ret l.
Proof.
  revert db. induction entries as [|[k0 v0] entries IH]; simpl; intros db Hnd.
  - intros [= <-] k l. rewrite lookup_empty. split; [done|].
    intros (v & Hin & _). by apply elem_of_nil in Hin.
  - apply NoDup_cons in Hnd as [Hk0 Hnd].
    destruct (coerce_value v0) as [l0|] eqn:Hv0; [|done].
    destruct (coerce_entries entries) as [db0|] eqn:Hrest; [|done].
    intros [= <-] k l. specialize (IH db0 Hnd eq_refl k l).
    destruct (decide (k0 = k)) as [->|Hne].
    + rewrite lookup_insert_eq. split.
      * intros [= <-]. exists v0. split; [left | done].
      * intros (v & Hin & Hv). apply elem_of_cons in Hin as [[= ->] | Hin].
        -- congruence.
        -- destruct Hk0. apply list_elem_of_fmap. by exists (k, v).
    + rewrite lookup_insert_ne by done. rewrite IH. split.
      * intros (v & Hin & Hv). exists v. split; [by right | done].
      * intros (v & Hin & Hv). apply elem_of_cons in Hin as [[= -> ->] | Hin];
          [done | eauto].
Qed.

Lemma coerce_entries_returns entries :
  (forall k v, (k, v) ∈ entries -> exists l, coerce_value v = Ret l) ->
  exists db, coerce_entries entries = Ret db.
Proof.
  induction entries as [|[k0 v0] entries IH]; simpl; intros Hall; [eauto|].
  destruct (Hall k0 v0) as [l ->]; [left|].
  destruct IH as [db ->]; [|eauto].
  intros k v Hin. apply (Hall k v). by right.
Qed.

(** The registry loaded from a document that is an object. *)
Lemma coerce_document_lookup members db :
  coerce_document (JObject members) = Ret db ->
  forall k l,
    db !! k = Some l <->
    exists v, dict_of_object members !! k = Some v /\ coerce_value v = Ret l.
Proof.
  simpl. intros Hdb k l.
  rewrite (coerce_entries_lookup _ _ (NoDup_fst_map_to_list _) Hdb).
  by setoid_rewrite elem_of_map_to_list.
Qed.

(** The dictionary built from members with distinct keys. *)
Lemma fold_insert_lookup (members : list (string * json)) :
  NoDup members.*1 ->
  forall (d : gmap string json) k v,
    fold_left (fun d kv => <[kv.1 := kv.2]> d) members d !! k = Some v <->
    (k, v) ∈ members \/ ((k ∉ members.*1) /\ d !! k = Some v).
Proof.
  induction members as [|[k0 v0] members IH]; intros Hnd d k v.
  - simpl. split; [intros ?; right; split; [apply not_elem_of_nil | done]|].
    intros [Hin | [_ ?]]; [by apply elem_of_nil in Hin | done].
  - rewrite fmap_cons in *. cbn [fst snd fold_left] in *.
    apply NoDup_cons in Hnd as [Hk0 Hnd]. rewrite (IH Hnd).
    rewrite !elem_of_cons.
    assert (forall v', (k0, v') ∈ members -> False) as Hfresh.
    { intros v' Hin. destruct Hk0. apply list_elem_of_fmap. by exists (k0, v'). }
    destruct (decide (k = k0)) as [->|Hne].
    + rewrite lookup_insert_eq. naive_solver.
    + rewrite lookup_insert_ne by done. naive_solver.
Qed.

Lemma dict_of_object_lookup (members : list (string * json)) k v :
  NoDup members.*1 ->
  dict_of_object members !! k = Some v <-> (k, v) ∈ members.
Proof.
  intros Hnd. unfold dict_of_object. rewrite (fold_insert_lookup _ Hnd).
  rewrite lookup_empty. naive_solver.
Qed.

(** ** Saving, then loading *)

Lemma coerce_list_ints (ids : list Z) :
  coerce_list (JInt <$> ids) = Ret (List.filter (fun z => 0 <=? z) ids).
Proof.
  induction ids as [|z ids IH]; [done|].
  cbn [fmap list_fmap coerce_list coerce_item List.filter].
  change (list_fmap Z json JInt ids) with (JInt <$> ids).
  rewrite IH, isdigit_str_of_int. by destruct (0 <=? z).
Qed.

Lemma dict_of_dump (db : gmap string (list Z)) :
  match dump db with
  | JObject members => dict_of_object members
  | _ => ∅
  end = (fun ids => JList (JInt <$> ids)) <$> db.
Proof.
  simpl. apply map_eq. intros k. apply option_eq. intros v.
  assert (NoDup ((fun kv : string * list Z => (kv.1, JList (JInt <$> kv.2)))
                   <$> map_to_list db).*1) as Hnd.
  { rewrite <- list_fmap_compose. exact (NoDup_fst_map_to_list db). }
  rewrite (dict_of_object_lookup _ _ _ Hnd), list_elem_of_fmap, lookup_fmap.
  split.
  - intros ([k' ids] & [= -> ->] & Hin). apply elem_of_map_to_list in Hin.
    by rewrite Hin.
  - destruct (db !! k) as [ids|] eqn:Hk; [|done]. intros [= <-].
    exists (k, ids). split; [done|]. by apply elem_of_map_to_list.
Qed.

(** Loading what was saved gives the registry back, without the ids that
    [str.isdigit] rejects (the negative ones). *)
Lemma coerce_dump (db : gmap string (list Z)) :
  coerce_document (dump db) = Ret (List.filter (fun z => 0 <=? z) <$> db).
Proof.
  pose proof (dict_of_dump db) as Hdict.
  destruct (dump db) as [| | | | | |members] eqn:Hdump; try done.
  destruct (coerce_entries_returns (map_to_list (dict_of_object members)))
    as [db' Hdb'].
  { intros k v Hin. apply elem_of_map_to_list in Hin.
    rewrite Hdict, lookup_fmap in Hin.
    destruct (db !! k) as [ids|]; [|done]. injection Hin as <-.
    simpl. rewrite coerce_list_ints. eauto. }
  simpl. rewrite Hdb'. f_equal. apply map_eq. intros k. apply option_eq. intros l.
  rewrite (coerce_document_lookup members db' Hdb'), Hdict.
  setoid_rewrite lookup_fmap. destruct (db !! k) as [ids|]; simpl.
  - split.
    + intros (v & [= <-] & Hv). simpl in Hv. rewrite coerce_list_ints in Hv.
      congruence.
    + intros [= <-]. eexists. split; [done|]. simpl. by rewrite coerce_list_ints.
  - split; [by intros (v & ? & _) | done].
Qed.

Lemma filter_non_negative (ids : list Z) :
  Forall (fun z => 0 <= z) ids -> List.filter (fun z => 0 <=? z) ids = ids.
Proof.
  induction 1 as [|z ids Hz _ IH]; [done|].
  simpl. apply Z.leb_le in Hz. by rewrite Hz, IH.
Qed.

Lemma load_after_save s db :
  database_file s = FileHolds (dump db) ->
  (forall k ids, db !! k = Some ids -> Forall (fun z => 0 <= z) ids) ->
  exists evs,
    load_database s =
      Ret (Store db (pending_verifications s) (FileHolds (dump db))
             (journal s ++ evs)).
Proof.
  intros Hf Hpos. rewrite (load_document s _ Hf), coerce_dump.
  eexists. f_equal. f_equal. apply map_eq. intros k. rewrite lookup_fmap.
  destruct (db !! k) as [ids|] eqn:Hk; [|done]. simpl. f_equal.
  eauto using filter_non_negative.
Qed.

(** ** Claims about loading *)

(** The parts of the loader that fail open: a missing file, and a file
    whose opening or parsing raises [IOError] or [JSONDecodeError], give
    the empty registry and a console line. *)
Lemma load_fails_open s :
  database_file s = FileMissing
  \/ database_file s = FileRaises IOError
  \/ database_file s = FileRaises JSONDecodeError ->
  exists l,
    load_database s =
      Ret (Store ∅ (pending_verifications s) (database_file s)
             (journal s ++ [Ev (Print l) None])).
Proof.
  intros [Hf | [Hf | Hf]]; rewrite Hf.
  - rewrite (load_missing s Hf). eauto.
  - rewrite (load_caught s _ Hf); eauto.
  - rewrite (load_caught s _ Hf); eauto.
Qed.

(** A value that is not a list is replaced by the empty list, and the
    other keys of the document are loaded all the same. *)
Lemma non_list_value_coerced s members k v s' :
  database_file s = FileHolds (JObject members) ->
  dict_of_object members !! k = Some v ->
  (forall items, v <> JList items) ->
  load_database s = Ret s' ->
  nickname_role_db s' !! k = Some [].
Proof.
  intros Hf Hk Hv. rewrite (load_document s _ Hf).
  destruct (coerce_document (JObject members)) as [db|] eqn:Hdoc; [|done].
  intros [= <-]. simpl. apply (coerce_document_lookup _ _ Hdoc).
  exists v. split; [done|]. destruct v; try done. by destruct (Hv items).
Qed.

Example load_not_a_list :
  exists s,
    load_database (boot (FileHolds (JObject [("X", JStr "not-a-list")]))) = Ret s
    /\ nickname_role_db s !! "X" = Some [].
Proof. eexists. split; [vm_compute; reflexivity | reflexivity]. Qed.

(** C4. The loader does not fail open on every stored content: a file
    holding valid JSON that is not an object (here the empty array) makes
    [.items()] raise [AttributeError], and a list holding a string that
    [str.isdigit] accepts but [int] rejects (here the superscript two)
    raises [ValueError]; neither is caught by
    [except (json.JSONDecodeError, IOError)], so the exception leaves
    [load_database]. *)
Theorem load_raises_on_unexpected_document :
  load_database (boot (FileHolds (JList []))) = Raise AttributeError
  /\ load_database
       (boot (FileHolds (JObject [("X", JList [JStr (String "178" EmptyString)])])))
     = Raise ValueError.
Proof. split; reflexivity. Qed.

(** ** Handlers that leave the registry and the file alone *)

Lemma keeps_registry_journal_only {A} (m : M A) : journal_only m -> keeps_registry m.
Proof. intros Hm s. destruct (Hm s) as [evs ->]. done. Qed.

Lemma keeps_registry_bind {A B} (m : M A) (f : A -> M B) :
  keeps_registry m -> (forall a, keeps_registry (f a)) -> keeps_registry (m ≫= f).
Proof.
  intros Hm Hf s. unfold mbind, M_bind.
  destruct (Hm s) as [Hdb Hfile]. destruct (m s) as [[a|e] s1]; simpl in *; [|done].
  destruct (Hf a s1) as [Hdb' Hfile']. split; congruence.
Qed.

Lemma keeps_registry_try {A} (m : M A) (h : exn -> M A) :
  keeps_registry m -> (forall e, keeps_registry (h e)) ->
  keeps_registry (try_except m h).
Proof.
  intros Hm Hh s. unfold try_except.
  destruct (Hm s) as [Hdb Hfile]. destruct (m s) as [[a|e] s1]; simpl in *; [done|].
  destruct (Hh e s1) as [Hdb' Hfile']. split; congruence.
Qed.

Lemma keeps_registry_begin uid gid : keeps_registry (begin_verification uid gid).
Proof. done. Qed.

Lemma keeps_registry_del uid : keeps_registry (del_pending uid).
Proof. done. Qed.

Ltac keeps_registry :=
  repeat first
    [ apply keeps_registry_begin
    | apply keeps_registry_del
    | apply keeps_registry_journal_only;
      solve [auto using journal_only_verify with journal]
    | apply keeps_registry_bind; [|intros ?]
    | apply keeps_registry_try; [|intros ?]
    | match goal with
      | |- keeps_registry (match ?x with _ => _ end) => destruct x
      | |- keeps_registry (if ?x then _ else _) => destruct x
      end ].

Lemma keeps_registry_on_member_join w member guild :
  keeps_registry (on_member_join w member guild).
Proof. unfold on_member_join. keeps_registry. Qed.

Lemma keeps_registry_on_message w discord message :
  keeps_registry (on_message w discord message).
Proof. unfold on_message. keeps_registry. Qed.

(** ** The registry invariant *)

Lemma registry_nodup_empty : registry_nodup ∅.
Proof. intros k ids. by rewrite lookup_empty. Qed.

Lemma registry_nodup_insert db k ids :
  registry_nodup db -> NoDup ids -> registry_nodup (<[k := ids]> db).
Proof.
  intros Hdb Hids k' ids'. destruct (decide (k = k')) as [->|Hne].
  - rewrite lookup_insert_eq. by intros [= <-].
  - rewrite lookup_insert_ne by done. apply Hdb.
Qed.

Lemma file_nodup_dump db : registry_nodup db -> file_nodup (FileHolds (dump db)).
Proof.
  intros Hdb db'. rewrite coerce_dump. intros [= <-] k ids.
  rewrite lookup_fmap. destruct (db !! k) as [ids0|] eqn:Hk; [|done].
  intros [= <-]. apply NoDup_ListNoDup, List.NoDup_filter, NoDup_ListNoDup. eauto.
Qed.

Lemma sound_boot f : file_nodup f -> sound (boot f).
Proof. intros Hf. split; [apply registry_nodup_empty | done]. Qed.

Lemma load_sound s s' : sound s -> load_database s = Ret s' -> sound s'.
Proof.
  intros [_ Hfile]. destruct (database_file s) as [|e|doc] eqn:Hf.
  - rewrite (load_missing s Hf). intros [= <-].
    split; [apply registry_nodup_empty | done].
  - destruct (decide (e = JSONDecodeError \/ e = IOError)) as [He|He].
    + rewrite (load_caught s e Hf He). intros [= <-].
      split; [apply registry_nodup_empty | done].
    + by rewrite (load_uncaught s e Hf He).
  - rewrite (load_document s doc Hf).
    destruct (coerce_document doc) as [db|] eqn:Hdoc; [|done].
    intros [= <-]. split; simpl; [by apply Hfile | done].
Qed.

Lemma handler_sound {A} (m : M A) s : keeps_registry m -> sound s -> sound (m s).2.
Proof. intros Hm [Hdb Hfile]. unfold sound. destruct (Hm s) as [-> ->]. done. Qed.

(** The store after a registration. *)
Lemma add_nickname_store w admin nickname role s :
  exists r db' f evs,
    add_nickname w admin nickname role s =
      (r, Store db' (pending_verifications s) f (journal s ++ evs))
    /\ ((db' = nickname_role_db s /\ f = database_file s)
        \/ ((f = FileHolds (dump db') \/ f = database_file s
             \/ f = FileRaises JSONDecodeError)
            /\ ((nickname_role_db s !! Py.strip nickname = None
                 /\ db' = <[Py.strip nickname := [role_id role]]> (nickname_role_db s))
                \/ exists ids,
                    nickname_role_db s !! Py.strip nickname = Some ids
                    /\ (role_id role ∉ ids)
                    /\ db' = <[Py.strip nickname := ids ++ [role_id role]]>
                               (nickname_role_db s)))).
Proof.
  unfold add_nickname.
  destruct (Py.strip nickname) as [|c key] eqn:Hstrip.
  - run. destruct (raises w _ _); eexists _, _, _, [_]; (split; [reflexivity | auto]).
  - unfold mbind, M_bind at 1. unfold get at 1.
    destruct (nickname_role_db s !! String c key) as [ids|] eqn:Hentry.
    + destruct (bool_decide (role_id role ∈ ids)) eqn:Hin.
      * run. destruct (raises w _ _); eexists _, _, _, [_];
          (split; [reflexivity | auto]).
      * apply bool_decide_eq_false in Hin.
        destruct (record_link w "updated" (String c key) role
                    (<[String c key := ids ++ [role_id role]]> (nickname_role_db s)) s)
          as (r & f & evs & Hlink & _ & _ & Hf).
        unfold mbind in Hlink. rewrite Hlink.
        eexists _, _, _, _. split; [reflexivity|]. right. split; [done|]. eauto.
    + destruct (record_link w "added" (String c key) role
                  (<[String c key := [role_id role]]> (nickname_role_db s)) s)
        as (r & f & evs & Hlink & _ & _ & Hf).
      unfold mbind in Hlink. rewrite Hlink.
      eexists _, _, _, _. split; [reflexivity|]. right. split; [done|]. eauto.
Qed.

Lemma register_sound w admin nickname role s :
  sound s -> sound (add_nickname w admin nickname role s).2.
Proof.
  intros [Hdb Hfile].
  destruct (add_nickname_store w admin nickname role s)
    as (r & db' & f & evs & -> & [[-> ->] | [Hf Hdb']]); [done|].
  assert (registry_nodup db') as Hnd.
  { destruct Hdb' as [[_ ->] | (ids & Hids & Hnotin & ->)];
      apply registry_nodup_insert; auto.
    - apply NoDup_singleton.
    - apply NoDup_app. split; [eauto|]. split; [|apply NoDup_singleton].
      intros x Hx ->%list_elem_of_singleton. done. }
  split; [done|]. simpl.
  destruct Hf as [-> | [-> | ->]]; [by apply file_nodup_dump | done | done].
Qed.

Lemma step_sound s s' : step s s' -> sound s -> sound s'.
Proof.
  intros [s0 s1 Hload | w member guild s0 r s1 Hrun
          | w discord message s0 r s1 Hrun | w admin nickname role s0 r s1 Hrun] Hs.
  - eauto using load_sound.
  - pose proof (handler_sound _ s0 (keeps_registry_on_member_join w member guild) Hs).
    by rewrite Hrun in *.
  - pose proof (handler_sound _ s0 (keeps_registry_on_message w discord message) Hs).
    by rewrite Hrun in *.
  - pose proof (register_sound w admin nickname role s0 Hs).
    by rewrite Hrun in *.
Qed.

Lemma reachable_sound f s : file_nodup f -> reachable f s -> sound s.
Proof.
  intros Hf. unfold reachable. revert s.
  apply rtc_ind_r; [by apply sound_boot | eauto using step_sound].
Qed.

(** The registry after a registration under a non-empty key. *)
Lemma add_nickname_db w admin nickname role s :
  Py.strip nickname <> "" ->
  nickname_role_db (add_nickname w admin nickname role s).2 =
  match nickname_role_db s !! Py.strip nickname with
  | None => <[Py.strip nickname := [role_id role]]> (nickname_role_db s)
  | Some ids =>
      if bool_decide (role_id role ∈ ids) then nickname_role_db s
      else <[Py.strip nickname := ids ++ [role_id role]]> (nickname_role_db s)
  end.
Proof.
  intros Hkey. unfold add_nickname.
  destruct (Py.strip nickname) as [|c key] eqn:Hstrip; [done|].
  unfold mbind, M_bind at 1. unfold get at 1.
  destruct (nickname_role_db s !! String c key) as [ids|] eqn:Hentry.
  - destruct (bool_decide (role_id role ∈ ids)).
    + by run.
    + destruct (record_link w "updated" (String c key) role
                  (<[String c key := ids ++ [role_id role]]> (nickname_role_db s)) s)
        as (r & f & evs & Hlink & _).
      unfold mbind in Hlink. by rewrite Hlink.
  - destruct (record_link w "added" (String c key) role
                (<[String c key := [role_id role]]> (nickname_role_db s)) s)
      as (r & f & evs & Hlink & _).
    unfold mbind in Hlink. by rewrite Hlink.
Qed.

Lemma step_register_run w admin nickname role s :
  step s (add_nickname w admin nickname role s).2.
Proof. eapply step_register. apply surjective_pairing. Qed.

Lemma step_message_run w discord message s :
  step s (on_message w discord message s).2.
Proof. eapply step_message. apply surjective_pairing. Qed.

Lemma step_join_run w member guild s :
  step s (on_member_join w member guild s).2.
Proof. eapply step_join. apply surjective_pairing. Qed.

(** ** Claims about the registry invariant *)

(** C6, as the claim states it, fails: the loader takes stored lists as
    they are, so a file that holds a grant-id twice under an identifier
    yields a reachable registry that holds it twice. *)
Lemma duplicate_grant_survives_load :
  exists s,
    reachable (FileHolds (JObject [("X", JList [JInt 7; JInt 7])])) s
    /\ nickname_role_db s !! "X" = Some [7; 7]
    /\ ~ registry_nodup (nickname_role_db s).
Proof.
  exists (Store {[ "X" := [7; 7] ]} ∅
            (FileHolds (JObject [("X", JList [JInt 7; JInt 7])]))
            [Ev (Print LogLoaded) None]).
  assert (nickname_role_db
            (Store {[ "X" := [7; 7] ]} ∅
               (FileHolds (JObject [("X", JList [JInt 7; JInt 7])]))
               [Ev (Print LogLoaded) None])
          !! "X" = Some [7; 7]) as Hx by (vm_compute; reflexivity).
  split; [|split; [exact Hx|]].
  - apply rtc_once, step_load. vm_compute. reflexivity.
  - intros Hnd. specialize (Hnd "X" [7; 7] Hx).
    apply NoDup_cons in Hnd as [Hin _]. apply Hin. left.
Qed.

(** C6, amended.  Starting from a backing file that is missing, fails to
    load, or whose lists hold no grant-id twice once coerced, every
    reachable state keeps each grant-id at most once per identifier, in
    the registry and in the stored document: registration only appends an
    id that is not yet present, the file is only rewritten from the
    registry, and the loader adds nothing.  A registration appends at the
    end, so registering grant A and then grant B under a fresh identifier
    leaves exactly [A; B], in that order. *)
Theorem registry_nodup_reachable f :
  file_nodup f ->
  (forall s, reachable f s ->
     registry_nodup (nickname_role_db s) /\ file_nodup (database_file s))
  /\ (forall w admin nickname role s ids,
        Py.strip nickname <> "" ->
        nickname_role_db s !! Py.strip nickname = Some ids ->
        (role_id role ∉ ids) ->
        nickname_role_db (add_nickname w admin nickname role s).2
          !! Py.strip nickname = Some (ids ++ [role_id role]))
  /\ (forall w1 w2 admin nickname roleA roleB s,
        Py.strip nickname <> "" ->
        nickname_role_db s !! Py.strip nickname = None ->
        role_id roleA <> role_id roleB ->
        nickname_role_db
          (add_nickname w2 admin nickname roleB
             (add_nickname w1 admin nickname roleA s).2).2
          !! Py.strip nickname = Some [role_id roleA; role_id roleB]).
Proof.
  intros Hf. split; [|split].
  - intros s Hreach. by apply (reachable_sound f).
  - intros w admin nickname role s ids Hkey Hentry Hnotin.
    rewrite add_nickname_db, Hentry by done.
    rewrite bool_decide_eq_false_2 by done. apply lookup_insert_eq.
  - intros w1 w2 admin nickname roleA roleB s Hkey Hentry Hne.
    rewrite add_nickname_db by done.
    rewrite (add_nickname_db w1) by done. rewrite Hentry, lookup_insert_eq.
    rewrite bool_decide_eq_false_2.
    + apply lookup_insert_eq.
    + intros Heq%list_elem_of_singleton. congruence.
Qed.

Lemma registry_nodup_reachable_witness :
  registry_nodup
    (nickname_role_db
       (add_nickname calm "root" "Owl" Nest.admiral
          (add_nickname calm "root" "Owl" Nest.pilot (boot FileMissing)).2).2)
  /\ nickname_role_db
       (add_nickname calm "root" "Owl" Nest.admiral
          (add_nickname calm "root" "Owl" Nest.pilot (boot FileMissing)).2).2
     !! "Owl" = Some [20; 10].
Proof.
  destruct (registry_nodup_reachable FileMissing I) as (Hreach & _ & Horder).
  split.
  - refine (proj1 (Hreach _ _)).
    eapply rtc_l; [apply step_register_run|].
    apply rtc_once, step_register_run.
  - exact (Horder calm calm "root" "Owl" Nest.pilot Nest.admiral (boot FileMissing)
             ltac:(discriminate) eq_refl ltac:(discriminate)).
Defined.

(** * Further properties of the handlers *)

(** ** Replies *)

(** Every run of [on_message] ends in one of three ways: it returns
    without touching anything but the journal, it returns having deleted
    the author's pending entry, or it raises having touched nothing but
    the journal. *)
Lemma on_message_cases w discord message s :
  exists evs,
    (exists p, on_message w discord message s = (Ret p, journalled s evs)
               /\ (p = NotAReply \/ p = NoGuildId))
    \/ (exists p, on_message w discord message s =
                    (Ret p, Store (nickname_role_db s)
                              (delete (author_id message) (pending_verifications s))
                              (database_file s) (journal s ++ evs))
                  /\ p <> NotAReply /\ p <> NoGuildId)
    \/ (exists e, on_message w discord message s = (Raise e, journalled s evs)).
Proof.
  destruct (author_bot message) eqn:Hbot.
  { exists []. left. exists NotAReply. unfold on_message. rewrite Hbot.
    by rewrite journalled_nil; auto. }
  destruct (in_dm message) eqn:Hdm; cycle 1.
  { exists []. left. exists NotAReply. unfold on_message. rewrite Hbot.
    unfold mbind, M_bind at 1. simpl. rewrite Hdm, journalled_nil. auto. }
  destruct (pending_verifications s !! author_id message) as [gid|] eqn:Hpend; cycle 1.
  { exists []. left. exists NotAReply. unfold on_message. rewrite Hbot.
    unfold mbind, M_bind at 1. simpl. rewrite Hdm, Hpend, journalled_nil. auto. }
  destruct (decide (gid = 0)) as [->|Hgid].
  { eexists. left. exists NoGuildId. unfold on_message. rewrite Hbot.
    unfold mbind, M_bind at 1. simpl. rewrite Hdm, Hpend. simpl.
    split; [reflexivity | auto]. }
  destruct (get_guild discord gid) as [guild|] eqn:Hguild; cycle 1.
  { eexists. right. left. exists GuildGone. unfold on_message. rewrite Hbot.
    unfold mbind, M_bind at 1. simpl. rewrite Hdm, Hpend.
    apply Z.eqb_neq in Hgid. rewrite Hgid, Hguild. simpl.
    split; [reflexivity | done]. }
  destruct (get_member guild (author_id message)) as [member|] eqn:Hmember; cycle 1.
  { eexists. right. left. exists MemberGone. unfold on_message. rewrite Hbot.
    unfold mbind, M_bind at 1. simpl. rewrite Hdm, Hpend.
    apply Z.eqb_neq in Hgid. rewrite Hgid, Hguild, Hmember. simpl.
    split; [reflexivity | done]. }
  destruct (on_message_reply w discord message s gid guild member)
    as (evs & r & _ & ->); [done|].
  destruct r as [c|e].
  - exists (evs ++ [Ev (Print (LogRemoved (author_id message))) None]).
    right. left. by exists (Classified c).
  - exists evs. right. right. by exists e.
Qed.

Lemma on_message_not_a_reply w discord message s :
  author_bot message = true
  \/ in_dm message = false
  \/ pending_verifications s !! author_id message = None ->
  on_message w discord message s = (Ret NotAReply, s).
Proof.
  intros Hcase. unfold on_message.
  destruct (author_bot message); [done|].
  destruct Hcase as [? | [Hdm | Hpend]]; [done| |];
    unfold mbind, M_bind; simpl.
  - by rewrite Hdm.
  - rewrite Hpend. by destruct (in_dm message).
Qed.

(** X1. A message from a bot, a message outside a direct-message channel,
    and a direct message from a user without a pending entry are all
    ignored: the handler returns with the store exactly as it was, so
    nothing is looked up, sent or printed.  No other message is ignored
    in this way. *)
Theorem non_reply_is_ignored w discord message s :
  (author_bot message = true
   \/ in_dm message = false
   \/ pending_verifications s !! author_id message = None ->
   on_message w discord message s = (Ret NotAReply, s))
  /\ ((on_message w discord message s).1 = Ret NotAReply ->
      author_bot message = true
      \/ in_dm message = false
      \/ pending_verifications s !! author_id message = None).
Proof.
  split; [apply on_message_not_a_reply|].
  destruct (author_bot message) eqn:Hbot; [auto|].
  destruct (in_dm message) eqn:Hdm; [|auto].
  destruct (pending_verifications s !! author_id message) as [gid|] eqn:Hpend; [|auto].
  intros Hrun. exfalso. revert Hrun.
  unfold on_message. rewrite Hbot. unfold mbind, M_bind at 1. simpl.
  rewrite Hdm, Hpend. destruct (gid =? 0); [done|].
  destruct (get_guild discord gid) as [guild|]; [|done].
  destruct (get_member guild (author_id message)) as [member|]; [|done].
  unfold mbind, M_bind.
  destruct (verify w guild member (author_id message) message s) as [[c|e] s1];
    [|done].
  simpl. by destruct (pending_verifications s1 !! author_id message).
Qed.

Lemma non_reply_is_ignored_witness :
  on_message calm [Nest.guild]
    {| author_id := 8; author_name := "bob"; author_bot := false;
       in_dm := true; content := "Falcon" |} Nest.start
  = (Ret NotAReply, Nest.start).
Proof.
  apply (proj1 (non_reply_is_ignored calm [Nest.guild]
                  {| author_id := 8; author_name := "bob"; author_bot := false;
                     in_dm := true; content := "Falcon" |} Nest.start)).
  right. right. reflexivity.
Defined.

(** X2. Whatever the platform does and however the run ends, [on_message]
    never changes the registry or the backing file, only appends to the
    journal, and leaves the pending entry of every user other than the
    author as it was. *)
Theorem reply_touches_only_author w discord message s :
  nickname_role_db (on_message w discord message s).2 = nickname_role_db s
  /\ database_file (on_message w discord message s).2 = database_file s
  /\ (forall u, u <> author_id message ->
        pending_verifications (on_message w discord message s).2 !! u
        = pending_verifications s !! u)
  /\ exists evs, journal (on_message w discord message s).2 = journal s ++ evs.
Proof.
  destruct (on_message_cases w discord message s)
    as (evs & [(p & -> & _) | [(p & -> & _) | (e & ->)]]); simpl;
    repeat split; eauto.
  intros u Hu. by rewrite lookup_delete_ne.
Qed.

Lemma reply_touches_only_author_witness :
  pending_verifications
    (on_message calm [Nest.guild] (Nest.reply "Falcon")
       (Store {[ "Falcon" := [10; 20] ]} {[ 7 := 500; 8 := 500 ]} FileMissing [])).2
    !! 8 = Some 500.
Proof.
  rewrite (proj1 (proj2 (proj2 (reply_touches_only_author calm [Nest.guild]
             (Nest.reply "Falcon")
             (Store {[ "Falcon" := [10; 20] ]} {[ 7 := 500; 8 := 500 ]} FileMissing []))))
            8 ltac:(simpl; lia)).
  reflexivity.
Defined.

(** X3. When an exception escapes [on_message], the tracker is exactly as
    it was before the message: the clean-up at the end of the handler has
    not run and the author, if pending, stays pending. *)
Theorem escaped_exception_keeps_tracker w discord message s e s' :
  on_message w discord message s = (Raise e, s') ->
  pending_verifications s' = pending_verifications s
  /\ nickname_role_db s' = nickname_role_db s
  /\ is_Some (pending_verifications s' !! author_id message).
Proof.
  intros Hrun.
  destruct (on_message_cases w discord message s)
    as (evs & [(p & Heq & _) | [(p & Heq & _) | (e' & Heq)]]);
    rewrite Hrun in Heq; try done.
  injection Heq as _ ->. simpl. split; [done|]. split; [done|].
  destruct (pending_verifications s !! author_id message) eqn:Hpend; [done|].
  rewrite (on_message_not_a_reply w discord message s) in Hrun; [done|auto].
Qed.

Lemma escaped_exception_keeps_tracker_witness :
  pending_verifications
    (on_message muted [Nest.guild] (Nest.reply "Nobody") Nest.start).2
  = pending_verifications Nest.start.
Proof.
  refine (proj1 (escaped_exception_keeps_tracker muted [Nest.guild]
                   (Nest.reply "Nobody") Nest.start Forbidden
                   (on_message muted [Nest.guild] (Nest.reply "Nobody") Nest.start).2 _)).
  vm_compute. reflexivity.
Defined.

(** ** The outcomes of a matched reply *)

Lemma on_message_of_verify w discord message s gid guild member c evs :
  reply_context discord message s gid guild member ->
  verify w guild member (author_id message) message s = (Ret c, journalled s evs) ->
  on_message w discord message s =
    (Ret (Classified c),
     Store (nickname_role_db s)
           (delete (author_id message) (pending_verifications s))
           (database_file s)
           (journal s ++ evs ++ [Ev (Print (LogRemoved (author_id message))) None])).
Proof.
  intros Hctx Hv.
  destruct (on_message_reply w _ _ _ _ _ _ Hctx) as (evs' & r & Hv' & ->).
  rewrite Hv in Hv'. injection Hv' as <- Hj. by apply app_inv_head in Hj as <-.
Qed.

(** [verify] on a matched entry, once the loop has run to its end. *)
Lemma verify_resolved w guild member uid message s ids :
  notices_delivered w uid ->
  nickname_role_db s !! Py.strip (content message) = Some ids ->
  ids <> [] ->
  verify w guild member uid message s =
    match assignable guild ids with
    | [] =>
        match unknown_removed guild ids with
        | [] =>
            (Ret HierarchyBlocked,
             journalled s
               (([Ev (Print (LogAttempt (Py.strip (content message)) uid)) None;
                  Ev (Lookup (Py.strip (content message))) None]
                 ++ flat_map (resolution_events guild uid (Py.strip (content message))) ids)
                ++ [Ev (Print (LogHierarchyOnly (member_id member))) None]))
        | _ =>
            (Ret NothingReported,
             journalled s
               ([Ev (Print (LogAttempt (Py.strip (content message)) uid)) None;
                 Ev (Lookup (Py.strip (content message))) None]
                ++ flat_map (resolution_events guild uid (Py.strip (content message))) ids))
        end
    | roles =>
        assign_roles w guild member uid (Py.strip (content message)) roles
          (Py.str_of_int <$> unknown_removed guild ids)
          (journalled s
             ([Ev (Print (LogAttempt (Py.strip (content message)) uid)) None;
               Ev (Lookup (Py.strip (content message))) None]
              ++ flat_map (resolution_events guild uid (Py.strip (content message))) ids))
    end.
Proof.
  intros Hw Hentry Hne. unfold verify. run. rewrite Hentry.
  destruct ids as [|rid ids]; [done|].
  set (nickname := Py.strip (content message)).
  set (s1 := record _ (record _ s)).
  unfold mbind, M_bind.
  rewrite (resolution_loop w guild uid nickname (rid :: ids) Hw ([], []) s1).
  cbn [fst snd app].
  set (loop := flat_map _ (rid :: ids)).
  assert (journalled s1 loop
          = journalled s ([Ev (Print (LogAttempt nickname uid)) None;
                           Ev (Lookup nickname) None] ++ loop)) as ->.
  { unfold s1, journalled, record. simpl. by rewrite <- !app_assoc. }
  destruct (assignable guild (rid :: ids)) as [|role roles]; [|done].
  destruct (unknown_removed guild (rid :: ids)) as [|u us]; simpl; [|done].
  unfold mret, M_ret. simpl. by rewrite record_journalled, journalled_app.
Qed.

Lemma assign_roles_success w guild member uid nickname roles missing s :
  all_calls_return w ->
  assign_roles w guild member uid nickname roles missing s =
    (Ret Success,
     journalled s
       ([Ev (AddRoles (guild_id guild) (member_id member) roles
               ("Verified via nickname: " +:+ nickname)) None;
         Ev (Print (LogAssigned (role_name <$> roles) (member_id member))) None;
         Ev (Send uid (VerificationSuccessful (role_name <$> roles))) None]
        ++ match missing with
           | [] => []
           | _ => [Ev (Send uid (NoteRolesNotFound missing)) None]
           end)).
Proof.
  intros Hw. unfold assign_roles. run. rewrite !Hw. simpl. rewrite ?Hw. simpl.
  unfold journalled, record. simpl.
  destruct missing; simpl; rewrite ?Hw; simpl; rewrite ?Hw; by rewrite <- ?app_assoc.
Qed.

Lemma assign_roles_failure w guild member uid nickname roles missing s e :
  assignment_raises w e ->
  sends_delivered w uid ->
  assign_roles w guild member uid nickname roles missing s =
    (Ret (failure_class e),
     journalled s
       [Ev (AddRoles (guild_id guild) (member_id member) roles
              ("Verified via nickname: " +:+ nickname)) (Some e);
        Ev (Print (failure_log e)) None;
        Ev (Send uid (failure_message e)) None]).
Proof.
  intros Hadd Hsend. unfold assign_roles. run. rewrite !Hadd. simpl.
  unfold journalled, record.
  destruct e; simpl; rewrite !Hsend; simpl; by rewrite <- ?app_assoc.
Qed.

Lemma messages_app (a b : list event) : messages (a ++ b) = messages a ++ messages b.
Proof. apply omap_app. Qed.

Lemma role_assignments_app (a b : list event) :
  role_assignments (a ++ b) = role_assignments a ++ role_assignments b.
Proof. apply omap_app. Qed.

Lemma all_calls_notices w uid : all_calls_return w -> notices_delivered w uid.
Proof. intros Hw tr name. apply Hw. Qed.

Lemma sends_notices w uid : sends_delivered w uid -> notices_delivered w uid.
Proof. intros Hw tr name. apply Hw. Qed.

Lemma deliveries_app (a b : list event) :
  deliveries (a ++ b) = deliveries a ++ deliveries b.
Proof. apply omap_app. Qed.

Lemma assignments_app (a b : list event) :
  assignments (a ++ b) = assignments a ++ assignments b.
Proof. apply omap_app. Qed.

Lemma resolution_deliveries guild uid nickname ids :
  deliveries (flat_map (resolution_events guild uid nickname) ids)
  = (fun r => (uid, NoPermissionForRole (role_name r)))
      <$> unassignable_by_hierarchy guild ids
  /\ assignments (flat_map (resolution_events guild uid nickname) ids) = [].
Proof.
  induction ids as [|rid ids [IH1 IH2]]; [done|].
  cbn [flat_map]. rewrite deliveries_app, assignments_app, IH1, IH2.
  rewrite unassignable_cons. unfold resolution_events.
  destruct (get_role guild rid) as [role|]; [|done].
  by destruct (role_gt _ _).
Qed.

Lemma get_member_id guild uid member :
  get_member guild uid = Some member -> member_id member = uid.
Proof.
  unfold get_member. intros Hfind. apply List.find_some in Hfind as [_ Heq].
  by apply Z.eqb_eq.
Qed.

(** X4. When every platform call returns and at least one registered role
    can be assigned, the reply is classified Success: one [add_roles] call
    is made, for the replying member in the guild of the pending entry,
    carrying the assignable roles and the audit reason that names the
    nickname; the author receives, in this order, one hierarchy notice per
    blocked role, the success message naming the assigned roles and, only
    if some registered id no longer exists, the note listing those ids;
    nothing is sent to anyone else and the pending entry is removed. *)
Theorem successful_verification_report w discord message s gid guild member ids :
  reply_context discord message s gid guild member ->
  nickname_role_db s !! Py.strip (content message) = Some ids ->
  assignable guild ids <> [] ->
  all_calls_return w ->
  exists evs,
    on_message w discord message s =
      (Ret (Classified Success),
       Store (nickname_role_db s)
             (delete (author_id message) (pending_verifications s))
             (database_file s) (journal s ++ evs))
    /\ role_assignments evs = [assignable guild ids]
    /\ messages evs =
       ((fun r => NoPermissionForRole (role_name r))
          <$> unassignable_by_hierarchy guild ids)
       ++ [VerificationSuccessful (role_name <$> assignable guild ids)]
       ++ match unknown_removed guild ids with
          | [] => []
          | unknown => [NoteRolesNotFound (Py.str_of_int <$> unknown)]
          end
    /\ assignments evs =
       [(guild_id guild, author_id message, assignable guild ids,
         "Verified via nickname: " +:+ Py.strip (content message))]
    /\ deliveries evs =
       (fun m => (author_id message, m))
         <$> (((fun r => NoPermissionForRole (role_name r))
                 <$> unassignable_by_hierarchy guild ids)
              ++ [VerificationSuccessful (role_name <$> assignable guild ids)]
              ++ match unknown_removed guild ids with
                 | [] => []
                 | unknown => [NoteRolesNotFound (Py.str_of_int <$> unknown)]
                 end).
Proof.
  intros Hctx Hentry Hassign Hw.
  assert (ids <> []) as Hne by (intros ->; done).
  pose proof (get_member_id _ _ _ (ctx_member _ _ _ _ _ _ Hctx)) as Hmid.
  pose proof (verify_resolved w guild member (author_id message) message s ids
                (all_calls_notices w _ Hw) Hentry Hne) as Hv.
  destruct (assignable guild ids) as [|role roles] eqn:Ha; [done|].
  rewrite (assign_roles_success w _ _ _ _ _ _ _ Hw), journalled_app in Hv.
  eexists. split; [exact (on_message_of_verify w _ _ _ _ _ _ _ _ Hctx Hv)|].
  destruct (resolution_silent guild (author_id message)
              (Py.strip (content message)) ids) as [Hadd _].
  destruct (resolution_deliveries guild (author_id message)
              (Py.strip (content message)) ids) as [Hdel Hasg].
  rewrite !role_assignments_app, !messages_app, !assignments_app, !deliveries_app.
  rewrite Hadd, resolution_messages, Hdel, Hasg, Hmid.
  split; [by destruct (_ <$> unknown_removed guild ids)|].
  split.
  { simpl. rewrite app_nil_r. do 2 f_equal.
    by destruct (unknown_removed guild ids). }
  split; [by destruct (_ <$> unknown_removed guild ids)|].
  simpl. rewrite app_nil_r, fmap_app, <- list_fmap_compose. f_equal.
  by destruct (unknown_removed guild ids).
Qed.

Lemma successful_verification_report_witness :
  exists evs,
    on_message calm [Nest.guild] (Nest.reply "Falcon") Nest.start =
      (Ret (Classified Success),
       Store (nickname_role_db Nest.start) (delete 7 (pending_verifications Nest.start))
             FileMissing evs)
    /\ assignments evs = [(500, 7, [Nest.pilot], "Verified via nickname: Falcon")]
    /\ deliveries evs
       = [(7, NoPermissionForRole "Admiral"); (7, VerificationSuccessful ["Pilot"])].
Proof.
  destruct (successful_verification_report calm [Nest.guild] (Nest.reply "Falcon")
              Nest.start 500 Nest.guild Nest.ann [10; 20])
    as (evs & Hrun & _ & _ & Hasg & Hdel).
  - split; (reflexivity || lia).
  - reflexivity.
  - discriminate.
  - intros tr c. reflexivity.
  - exists evs. split; [exact Hrun|]. split; [exact Hasg | exact Hdel].
Defined.

(** X5. When [add_roles] raises and the answer to the user is delivered,
    the exception is absorbed by the handler: [discord.Forbidden] gives
    PermissionDenied and the "Manage Roles" answer, another
    [HTTPException] gives TransientFailure and "try again later", anything
    else gives the unexpected-error answer.  The call was attempted once,
    with the assignable roles, and the pending entry is removed all the
    same, so the user has to join again to retry. *)
Theorem assignment_failure_absorbed w discord message s gid guild member ids e :
  reply_context discord message s gid guild member ->
  nickname_role_db s !! Py.strip (content message) = Some ids ->
  assignable guild ids <> [] ->
  assignment_raises w e ->
  sends_delivered w (author_id message) ->
  exists evs,
    on_message w discord message s =
      (Ret (Classified (failure_class e)),
       Store (nickname_role_db s)
             (delete (author_id message) (pending_verifications s))
             (database_file s) (journal s ++ evs))
    /\ role_assignments evs = [assignable guild ids]
    /\ messages evs =
       ((fun r => NoPermissionForRole (role_name r))
          <$> unassignable_by_hierarchy guild ids)
       ++ [failure_message e].
Proof.
  intros Hctx Hentry Hassign Hadd Hsend.
  assert (ids <> []) as Hne by (intros ->; done).
  pose proof (verify_resolved w guild member (author_id message) message s ids
                (sends_notices w _ Hsend) Hentry Hne) as Hv.
  destruct (assignable guild ids) as [|role roles] eqn:Ha; [done|].
  rewrite (assign_roles_failure w _ _ _ _ _ _ _ e Hadd Hsend), journalled_app in Hv.
  eexists. split; [exact (on_message_of_verify w _ _ _ _ _ _ _ _ Hctx Hv)|].
  destruct (resolution_silent guild (author_id message)
              (Py.strip (content message)) ids) as [Hroles _].
  rewrite !role_assignments_app, !messages_app, Hroles, resolution_messages.
  split; [done|]. simpl. by rewrite app_nil_r.
Qed.

Lemma assignment_failure_absorbed_witness :
  exists evs,
    on_message refusing [Nest.guild] (Nest.reply "Falcon") Nest.start =
      (Ret (Classified PermissionDenied),
       Store (nickname_role_db Nest.start) (delete 7 (pending_verifications Nest.start))
             FileMissing evs)
    /\ messages evs = [NoPermissionForRole "Admiral"; LacksManageRoles].
Proof.
  destruct (assignment_failure_absorbed refusing [Nest.guild] (Nest.reply "Falcon")
              Nest.start 500 Nest.guild Nest.ann [10; 20] Forbidden)
    as (evs & Hrun & _ & Hmsg).
  - split; (reflexivity || lia).
  - reflexivity.
  - discriminate.
  - intros tr gid uid roles reason. reflexivity.
  - intros tr m. reflexivity.
  - exists evs. split; [exact Hrun | exact Hmsg].
Defined.

Lemma resolved_cons guild rid ids :
  resolved guild (rid :: ids) =
  match get_role guild rid with
  | Some role => role :: resolved guild ids
  | None => resolved guild ids
  end.
Proof. unfold resolved. simpl. by destruct (get_role guild rid). Qed.

(** X6. When every registered id resolves to a role that the bot's top
    role does not outrank, and the notices are delivered, the reply is
    classified HierarchyBlocked: the user receives exactly one notice per
    registered id, in registered order, no [add_roles] call is made, and
    the pending entry is removed. *)
Theorem all_roles_blocked w discord message s gid guild member ids :
  reply_context discord message s gid guild member ->
  nickname_role_db s !! Py.strip (content message) = Some ids ->
  ids <> [] ->
  Forall (fun rid => exists role,
            get_role guild rid = Some role
            /\ role_rank (guild_top_role guild) <= role_rank role) ids ->
  notices_delivered w (author_id message) ->
  exists evs,
    on_message w discord message s =
      (Ret (Classified HierarchyBlocked),
       Store (nickname_role_db s)
             (delete (author_id message) (pending_verifications s))
             (database_file s) (journal s ++ evs))
    /\ role_assignments evs = []
    /\ messages evs =
       (fun r => NoPermissionForRole (role_name r)) <$> resolved guild ids
    /\ length (messages evs) = length ids.
Proof.
  intros Hctx Hentry Hne Hall Hw.
  assert (assignable guild ids = [] /\ unknown_removed guild ids = []
          /\ unassignable_by_hierarchy guild ids = resolved guild ids
          /\ length (resolved guild ids) = length ids) as (Ha & Hu & Hb & Hlen).
  { clear Hentry Hne. induction Hall as [|rid ids (role & Hrole & Hrank) _ IH].
    - done.
    - destruct IH as (Ha & Hu & Hb & Hlen).
      rewrite assignable_cons, unknown_removed_cons, unassignable_cons, Hrole.
      rewrite resolved_cons, Hrole.
      unfold role_gt. apply Z.ltb_ge in Hrank. rewrite Hrank, Ha, Hu, Hb.
      simpl. by rewrite Hlen. }
  pose proof (verify_resolved w guild member (author_id message) message s ids
                Hw Hentry Hne) as Hv.
  rewrite Ha, Hu in Hv.
  eexists. split; [exact (on_message_of_verify w _ _ _ _ _ _ _ _ Hctx Hv)|].
  destruct (resolution_silent guild (author_id message)
              (Py.strip (content message)) ids) as [Hroles _].
  rewrite !role_assignments_app, !messages_app, Hroles, resolution_messages, Hb.
  simpl. rewrite !app_nil_r. by rewrite length_fmap.
Qed.

Lemma all_roles_blocked_witness :
  exists evs,
    on_message calm [Nest.guild] (Nest.reply "Eagle")
      (Store {[ "Eagle" := [10; 10] ]} {[ 7 := 500 ]} FileMissing []) =
      (Ret (Classified HierarchyBlocked),
       Store {[ "Eagle" := [10; 10] ]} (delete 7 {[ 7 := 500 ]}) FileMissing evs)
    /\ messages evs = [NoPermissionForRole "Admiral"; NoPermissionForRole "Admiral"].
Proof.
  destruct (all_roles_blocked calm [Nest.guild] (Nest.reply "Eagle")
              (Store {[ "Eagle" := [10; 10] ]} {[ 7 := 500 ]} FileMissing [])
              500 Nest.guild Nest.ann [10; 10])
    as (evs & Hrun & _ & Hmsg & _).
  - split; (reflexivity || lia).
  - reflexivity.
  - discriminate.
  - repeat constructor; exists Nest.admiral; (split; [reflexivity | simpl; lia]).
  - intros tr name. reflexivity.
  - exists evs. split; [exact Hrun | exact Hmsg].
Defined.

(** ** Joins *)

Lemma on_member_join_human w member guild s :
  member_bot member = false ->
  exists evs,
    on_member_join w member guild s =
      (Ret tt,
       Store (nickname_role_db s)
             (<[member_id member := guild_id guild]> (pending_verifications s))
             (database_file s) (journal s ++ evs))
    /\ (messages evs = []
        \/ messages evs = [Welcome (guild_name guild) (member_id member)]).
Proof.
  intros Hbot. unfold on_member_join. rewrite Hbot.
  unfold begin_verification. run. unfold record. simpl.
  case_raises; rewrite <- ?app_assoc; simpl;
    (eexists; split; [reflexivity | auto]).
Qed.

(** X7. A join always ends normally.  For a human member, whatever
    happens to the welcome message, the member's pending entry holds the
    guild just joined (replacing any earlier one), the registry and the
    file are untouched, and at most the welcome message was attempted: a
    failed delivery does not roll the entry back.  For a bot account the
    join is only logged: no entry, no channel, no message. *)
Theorem join_records_pending w member guild s :
  (member_bot member = false ->
   exists evs,
     on_member_join w member guild s =
       (Ret tt,
        Store (nickname_role_db s)
              (<[member_id member := guild_id guild]> (pending_verifications s))
              (database_file s) (journal s ++ evs))
     /\ (messages evs = []
         \/ messages evs = [Welcome (guild_name guild) (member_id member)])
     /\ <[member_id member := guild_id guild]> (pending_verifications s)
          !! member_id member = Some (guild_id guild))
  /\ (member_bot member = true ->
      on_member_join w member guild s =
        (Ret tt,
         journalled s
           [Ev (Print (LogJoined (member_id member) (guild_id guild))) None])).
Proof.
  split; intros Hbot.
  - destruct (on_member_join_human w member guild s Hbot) as (evs & Hrun & Hmsg).
    exists evs. by rewrite lookup_insert_eq.
  - unfold on_member_join. rewrite Hbot. by run.
Qed.

Lemma join_records_pending_witness :
  exists evs,
    on_member_join muted Nest.ann Nest.guild (boot FileMissing) =
      (Ret tt, Store ∅ (<[7 := 500]> ∅) FileMissing evs).
Proof.
  destruct (proj1 (join_records_pending muted Nest.ann Nest.guild (boot FileMissing)))
    as (evs & Hrun & _); [reflexivity|].
  exists evs. exact Hrun.
Defined.

(** X8. Join, then reply.  After a member joined a guild, a reply of that
    member that gets classified was verified against the guild joined
    last, whatever guild an older entry named, and the tracker ends as
    the one before the join without the member: one join allows one
    attempt. *)
Theorem join_then_reply_cycle w1 w2 discord member guild message s s1 c s2 :
  member_bot member = false ->
  author_id message = member_id member ->
  on_member_join w1 member guild s = (Ret tt, s1) ->
  on_message w2 discord message s1 = (Ret (Classified c), s2) ->
  pending_verifications s2 = delete (member_id member) (pending_verifications s)
  /\ nickname_role_db s2 = nickname_role_db s
  /\ exists guild' member',
       get_guild discord (guild_id guild) = Some guild'
       /\ get_member guild' (member_id member) = Some member'.
Proof.
  intros Hbot Hid Hjoin Hreply.
  destruct (on_member_join_human w1 member guild s Hbot) as (evs & Hrun & _).
  rewrite Hjoin in Hrun. injection Hrun as ->.
  destruct (classified_reply_resolves_entry _ _ _ _ _ _ Hreply) as (Hpend & Hdb & _).
  destruct (on_message_classified_inv _ _ _ _ _ _ Hreply)
    as (gid & guild' & member' & [_ _ Hp _ Hguild Hmember]).
  simpl in *. rewrite Hid in *. rewrite lookup_insert_eq in Hp. injection Hp as <-.
  split; [by rewrite Hpend, delete_insert_eq|]. split; [done|]. eauto.
Qed.

Lemma join_then_reply_cycle_witness :
  pending_verifications
    (on_message calm [Nest.guild] (Nest.reply "Falcon")
       (on_member_join calm Nest.ann Nest.guild
          (Store {[ "Falcon" := [10; 20] ]} {[ 7 := 400 ]} FileMissing [])).2).2
  = delete 7 {[ 7 := 400 ]}.
Proof.
  refine (proj1 (join_then_reply_cycle calm calm [Nest.guild] Nest.ann Nest.guild
                   (Nest.reply "Falcon")
                   (Store {[ "Falcon" := [10; 20] ]} {[ 7 := 400 ]} FileMissing [])
                   _ Success _ _ _ _ _)).
  - reflexivity.
  - reflexivity.
  - vm_compute. reflexivity.
  - vm_compute. reflexivity.
Defined.

(** ** Persistence *)

(** X9. [save_database] never raises and never changes the registry or
    the tracker.  A successful write leaves the dump of the registry in
    the file; a failed one is logged, and the file is then as before or
    torn. *)
Theorem save_absorbs_write_failure w s :
  exists f evs,
    save_database w s =
      (Ret tt, Store (nickname_role_db s) (pending_verifications s) f
                 (journal s ++ evs))
    /\ match writes w (journal s) with
       | Written =>
           f = FileHolds (dump (nickname_role_db s))
           /\ evs = [Ev (WriteFile (dump (nickname_role_db s))) None]
       | FailedIntact =>
           f = database_file s
           /\ evs = [Ev (WriteFile (dump (nickname_role_db s))) (Some IOError);
                     Ev (Print (LogSaveError IOError)) None]
       | FailedTorn =>
           f = FileRaises JSONDecodeError
           /\ evs = [Ev (WriteFile (dump (nickname_role_db s))) (Some IOError);
                     Ev (Print (LogSaveError IOError)) None]
       end.
Proof.
  unfold save_database, write_file. run.
  destruct (writes w (journal s)); simpl;
    unfold record; simpl; rewrite <- ?app_assoc; simpl;
    (do 2 eexists; split; [reflexivity | auto]).
Qed.

Lemma save_written w s :
  writes w (journal s) = Written ->
  save_database w s =
    (Ret tt,
     Store (nickname_role_db s) (pending_verifications s)
           (FileHolds (dump (nickname_role_db s)))
           (journal s ++ [Ev (WriteFile (dump (nickname_role_db s))) None])).
Proof. intros Hw. unfold save_database, write_file. run. by rewrite Hw. Qed.

(** X10. Save, then load.  After a successful save, loading gives back
    the registry with every identifier and, in each list, the
    non-negative ids in their order; a negative id is dropped, because
    its decimal text fails [str.isdigit].  With non-negative ids only the
    registry comes back unchanged. *)
Theorem save_then_load w s :
  writes w (journal s) = Written ->
  exists s',
    load_database (save_database w s).2 = Ret s'
    /\ nickname_role_db s'
       = List.filter (fun z => 0 <=? z) <$> nickname_role_db s
    /\ ((forall k ids,
           nickname_role_db s !! k = Some ids -> Forall (fun z => 0 <= z) ids) ->
        nickname_role_db s' = nickname_role_db s).
Proof.
  intros Hw. rewrite (save_written w s Hw).
  rewrite (load_document _ (dump (nickname_role_db s))) by done.
  rewrite coerce_dump. eexists. split; [reflexivity|]. simpl. split; [done|].
  intros Hpos. apply map_eq. intros k. rewrite lookup_fmap.
  destruct (nickname_role_db s !! k) as [ids|] eqn:Hk; [|done]. simpl. f_equal.
  eauto using filter_non_negative.
Qed.

Lemma save_then_load_witness :
  exists s',
    load_database (save_database calm Nest.start).2 = Ret s'
    /\ nickname_role_db s' = nickname_role_db Nest.start.
Proof.
  destruct (save_then_load calm Nest.start) as (s' & Hload & _ & Hsame);
    [reflexivity|].
  exists s'. split; [exact Hload|]. apply Hsame.
  - intros k ids Hk.
    destruct (decide (k = "Falcon")) as [->|Hne1].
    + injection Hk as <-. repeat constructor; lia.
    + destruct (decide (k = "Ghost")) as [->|Hne2].
      * injection Hk as <-. repeat constructor; lia.
      * exfalso. unfold Nest.start in Hk. simpl in Hk.
        rewrite lookup_insert_ne in Hk by done.
        by rewrite lookup_singleton_ne in Hk.
Defined.

(** ** Registration *)

(** The registration of a new pair, step by step. *)
Lemma add_nickname_new_pair w admin nickname role s :
  Py.strip nickname <> "" ->
  (nickname_role_db s !! Py.strip nickname = None
   \/ exists ids, nickname_role_db s !! Py.strip nickname = Some ids
                  /\ (role_id role ∉ ids)) ->
  exists action db',
    add_nickname w admin nickname role s =
      ((modify (with_db db');;
        save_database w;;
        print (LogAdmin action (Py.strip nickname) (role_id role));;
        perform w (Respond (LinkRecorded action (Py.strip nickname) (role_name role)))) s)
    /\ db' !! Py.strip nickname
       = Some (default [] (nickname_role_db s !! Py.strip nickname) ++ [role_id role])
    /\ (forall k, k <> Py.strip nickname -> db' !! k = nickname_role_db s !! k).
Proof.
  intros Hkey Hnew. unfold add_nickname.
  destruct (Py.strip nickname) as [|c key] eqn:Hstrip; [done|].
  unfold mbind at 1. unfold M_bind at 1. unfold get at 1.
  destruct Hnew as [Hentry | (ids & Hentry & Hnotin)]; rewrite Hentry.
  - eexists "added", _. split; [reflexivity|]. simpl.
    split; [apply lookup_insert_eq | intros k Hk; by apply lookup_insert_ne].
  - rewrite bool_decide_eq_false_2 by done.
    eexists "updated", _. split; [reflexivity|]. simpl.
    split; [apply lookup_insert_eq | intros k Hk; by apply lookup_insert_ne].
Qed.

(** X11. A registration whose write fails is still reported to the admin
    as recorded: the in-memory registry holds the new pair, the failure
    is only printed on the console, and the backing file does not hold
    the new registry (it is as before, or torn). *)
Theorem failed_write_reported_as_recorded w admin nickname role s :
  Py.strip nickname <> "" ->
  (nickname_role_db s !! Py.strip nickname = None
   \/ exists ids, nickname_role_db s !! Py.strip nickname = Some ids
                  /\ (role_id role ∉ ids)) ->
  writes w (journal s) <> Written ->
  exists r s' evs action,
    add_nickname w admin nickname role s = (r, s')
    /\ journal s' = journal s ++ evs
    /\ nickname_role_db s' !! Py.strip nickname
       = Some (default [] (nickname_role_db s !! Py.strip nickname) ++ [role_id role])
    /\ (database_file s' = database_file s
        \/ database_file s' = FileRaises JSONDecodeError)
    /\ responses evs = [LinkRecorded action (Py.strip nickname) (role_name role)]
    /\ Ev (Print (LogSaveError IOError)) None ∈ evs.
Proof.
  intros Hkey Hnew Hw.
  destruct (add_nickname_new_pair w admin nickname role s Hkey Hnew)
    as (action & db' & -> & Hdb' & _).
  unfold save_database, write_file. run.
  destruct (writes w (journal s)) eqn:Hwrites; [done| |]; simpl;
    unfold record; simpl; rewrite <- ?app_assoc; simpl;
    (eexists _, _, _, action; split; [reflexivity|]; simpl;
     split; [reflexivity|]; split; [exact Hdb'|]; split; [auto|];
     split; [reflexivity|]; set_solver).
Qed.

Lemma failed_write_reported_as_recorded_witness :
  exists r s' evs action,
    add_nickname tearing "root" "Owl" Nest.pilot Nest.start = (r, s')
    /\ nickname_role_db s' !! "Owl" = Some [20]
    /\ responses evs = [LinkRecorded action "Owl" "Pilot"].
Proof.
  destruct (failed_write_reported_as_recorded tearing "root" "Owl" Nest.pilot Nest.start)
    as (r & s' & evs & action & Hrun & _ & Hdb & _ & Hresp & _).
  - discriminate.
  - left. reflexivity.
  - discriminate.
  - exists r, s', evs, action. split; [exact Hrun|]. split; [exact Hdb | exact Hresp].
Defined.

(** X12. A registration whose write tears the file loses the whole
    registry at the next load (as [on_ready] does on every reconnect):
    the torn file does not parse, the loader falls back to the empty
    registry, and the pair just reported as recorded is gone together
    with every older one. *)
Theorem torn_write_then_load_empties_registry w admin nickname role s :
  Py.strip nickname <> "" ->
  (nickname_role_db s !! Py.strip nickname = None
   \/ exists ids, nickname_role_db s !! Py.strip nickname = Some ids
                  /\ (role_id role ∉ ids)) ->
  writes w (journal s) = FailedTorn ->
  exists s',
    load_database (add_nickname w admin nickname role s).2 = Ret s'
    /\ nickname_role_db s' = ∅.
Proof.
  intros Hkey Hnew Hw.
  destruct (add_nickname_new_pair w admin nickname role s Hkey Hnew)
    as (action & db' & -> & _).
  match goal with |- context [load_database ?t] => set (s1 := t) end.
  assert (database_file s1 = FileRaises JSONDecodeError) as Hf.
  { unfold s1, save_database, write_file. run. by rewrite Hw. }
  rewrite (load_caught s1 _ Hf) by auto. by eexists.
Qed.

Lemma torn_write_then_load_empties_registry_witness :
  exists s',
    load_database (add_nickname tearing "root" "Owl" Nest.pilot Nest.start).2 = Ret s'
    /\ nickname_role_db s' = ∅.
Proof.
  apply (torn_write_then_load_empties_registry tearing "root" "Owl"
           Nest.pilot Nest.start).
  - discriminate.
  - left. reflexivity.
  - reflexivity.
Defined.

(** X13. Registration is idempotent: running the command again with the
    same nickname and role, after any first run, only answers the admin;
    the registry, the file and the tracker stay as the first run left
    them and no write is attempted. *)
Theorem registration_idempotent w1 w2 admin1 admin2 nickname role s :
  exists r o resp,
    add_nickname w2 admin2 nickname role (add_nickname w1 admin1 nickname role s).2
    = (r, journalled (add_nickname w1 admin1 nickname role s).2 [Ev (Respond resp) o])
    /\ (resp = NicknameEmpty
        \/ resp = AlreadyLinked (Py.strip nickname) (role_name role)).
Proof.
  set (s1 := (add_nickname w1 admin1 nickname role s).2).
  destruct (decide (Py.strip nickname = "")) as [Hempty|Hkey].
  - unfold add_nickname at 1. rewrite Hempty. run.
    destruct (raises w2 _ _); eexists _, _, _; (split; [reflexivity | auto]).
  - assert (exists ids, nickname_role_db s1 !! Py.strip nickname = Some ids
                        /\ role_id role ∈ ids) as (ids & Hentry & Hin).
    { unfold s1. rewrite add_nickname_db by done.
      destruct (nickname_role_db s !! Py.strip nickname) as [ids|] eqn:Hentry.
      - destruct (bool_decide (role_id role ∈ ids)) eqn:Hin.
        + apply bool_decide_eq_true in Hin. eauto.
        + rewrite lookup_insert_eq. eexists. split; [done|]. set_solver.
      - rewrite lookup_insert_eq. eexists. split; [done|]. set_solver. }
    unfold add_nickname at 1.
    destruct (Py.strip nickname) as [|c key] eqn:Hstrip; [done|].
    unfold mbind at 1. unfold M_bind at 1. unfold get at 1.
    rewrite Hentry, bool_decide_eq_true_2 by done. run.
    destruct (raises w2 _ _); eexists _, _, _; (split; [reflexivity | auto]).
Qed.

(** X14. Registration only grows the registry: every identifier keeps its
    list as a prefix of the new one, at most the one role id is appended,
    and only under the trimmed nickname; nothing is ever removed and the
    tracker is not touched. *)
Theorem registration_only_appends w admin nickname role s k ids :
  nickname_role_db s !! k = Some ids ->
  (exists extra,
      nickname_role_db (add_nickname w admin nickname role s).2 !! k
      = Some (ids ++ extra)
      /\ (extra = [] \/ (k = Py.strip nickname /\ extra = [role_id role])))
  /\ pending_verifications (add_nickname w admin nickname role s).2
     = pending_verifications s.
Proof.
  intros Hk.
  destruct (add_nickname_store w admin nickname role s)
    as (r & db' & f & evs & -> & Hcases). simpl. split; [|done].
  destruct Hcases as [[-> _] | [_ [[Hnone ->] | (ids' & Hsome & _ & ->)]]].
  - exists []. rewrite app_nil_r. auto.
  - exists []. rewrite app_nil_r. split; [|auto].
    rewrite lookup_insert_ne; [done | congruence].
  - destruct (decide (Py.strip nickname = k)) as [<-|Hne].
    + rewrite lookup_insert_eq. exists [role_id role]. split; [congruence | auto].
    + exists []. rewrite app_nil_r, lookup_insert_ne by done. auto.
Qed.

Lemma registration_only_appends_witness :
  exists extra,
    nickname_role_db (add_nickname calm "root" " Falcon" Nest.pilot
                        (Store {[ "Falcon" := [10] ]} ∅ FileMissing [])).2 !! "Falcon"
    = Some ([10] ++ extra).
Proof.
  destruct (registration_only_appends calm "root" " Falcon" Nest.pilot
              (Store {[ "Falcon" := [10] ]} ∅ FileMissing []) "Falcon" [10])
    as [(extra & Hdb & _) _]; [reflexivity|].
  exists extra. exact Hdb.
Defined.

(** ** Reloading *)

Lemma load_keeps_file_and_tracker s s' :
  load_database s = Ret s' ->
  database_file s' = database_file s
  /\ pending_verifications s' = pending_verifications s.
Proof.
  destruct (database_file s) as [|e|doc] eqn:Hf.
  - rewrite (load_missing s Hf). by intros [= <-].
  - destruct (decide (e = JSONDecodeError \/ e = IOError)) as [He|He].
    + rewrite (load_caught s e Hf He). by intros [= <-].
    + by rewrite (load_uncaught s e Hf He).
  - rewrite (load_document s doc Hf). destruct (coerce_document doc); [|done].
    by intros [= <-].
Qed.

Lemma load_returns s :
  file_loadable (database_file s) -> exists s', load_database s = Ret s'.
Proof.
  destruct (database_file s) as [|e|doc] eqn:Hf; simpl.
  - intros _. rewrite (load_missing s Hf). eauto.
  - intros He. rewrite (load_caught s e Hf He). eauto.
  - intros [db Hdb]. rewrite (load_document s doc Hf), Hdb. eauto.
Qed.

Lemma step_loadable s s' :
  step s s' -> file_loadable (database_file s) -> file_loadable (database_file s').
Proof.
  intros [s0 s1 Hload | w member guild s0 r s1 Hrun
          | w discord message s0 r s1 Hrun | w admin nickname role s0 r s1 Hrun] Hs.
  - destruct (load_keeps_file_and_tracker s0 s1 Hload) as [Hf _]. by rewrite Hf.
  - destruct (keeps_registry_on_member_join w member guild s0) as [_ Hf].
    rewrite Hrun in Hf. simpl in Hf. by rewrite Hf.
  - destruct (keeps_registry_on_message w discord message s0) as [_ Hf].
    rewrite Hrun in Hf. simpl in Hf. by rewrite Hf.
  - destruct (add_nickname_store w admin nickname role s0)
      as (r' & db' & f & evs & Heq & Hcases).
    rewrite Hrun in Heq. injection Heq as _ ->. simpl.
    destruct Hcases as [[_ ->] | [[-> | [-> | ->]] _]]; simpl; auto.
    exists (List.filter (fun z => 0 <=? z) <$> db'). apply coerce_dump.
Qed.

(** X15. Once the process has started from a file on which the loader
    returns (missing, unreadable, not JSON, or a document it can coerce),
    every later load returns as well, in every reachable state: the
    program itself never leaves the file in a state that makes
    [load_database] raise.  A load never touches the tracker. *)
Theorem reload_never_raises f s :
  file_loadable f ->
  reachable f s ->
  exists s',
    load_database s = Ret s'
    /\ pending_verifications s' = pending_verifications s.
Proof.
  intros Hf Hreach.
  assert (file_loadable (database_file s)) as Hs.
  { revert s Hreach. unfold reachable.
    apply rtc_ind_r; [done | eauto using step_loadable]. }
  destruct (load_returns s Hs) as [s' Hload].
  exists s'. split; [done|]. by apply load_keeps_file_and_tracker.
Qed.

Lemma reload_never_raises_witness :
  exists s',
    load_database (add_nickname tearing "root" "Owl" Nest.pilot (boot FileMissing)).2
    = Ret s'.
Proof.
  destruct (reload_never_raises FileMissing
              (add_nickname tearing "root" "Owl" Nest.pilot (boot FileMissing)).2 I)
    as (s' & Hload & _).
  - apply rtc_once, step_register_run.
  - exists s'. exact Hload.
Defined.

(** X16. What a load makes of a stored object: the registry is replaced
    as a whole, it has an entry exactly for the keys of the document, and
    each entry is the coercion of that key's value alone; in particular a
    list of integers is kept without its negative members, whatever the
    other keys hold.  Nothing of the previous registry survives. *)
Theorem load_replaces_registry s members s' :
  database_file s = FileHolds (JObject members) ->
  load_database s = Ret s' ->
  (forall k l,
      nickname_role_db s' !! k = Some l <->
      exists v, dict_of_object members !! k = Some v /\ coerce_value v = Ret l)
  /\ (forall k ids,
        dict_of_object members !! k = Some (JList (JInt <$> ids)) ->
        nickname_role_db s' !! k = Some (List.filter (fun z => 0 <=? z) ids))
  /\ pending_verifications s' = pending_verifications s.
Proof.
  intros Hf. rewrite (load_document s _ Hf).
  destruct (coerce_document (JObject members)) as [db|] eqn:Hdoc; [|done].
  intros [= <-]. simpl.
  pose proof (coerce_document_lookup members db Hdoc) as Hlookup.
  split; [done|]. split; [|done].
  intros k ids Hk. apply Hlookup. eexists. split; [exact Hk|].
  apply coerce_list_ints.
Qed.

Lemma load_replaces_registry_witness :
  exists s',
    load_database
      (Store {[ "Old" := [1] ]} ∅
         (FileHolds (JObject [("X", JList [JInt 5; JInt (-3); JInt 8])])) [])
    = Ret s'
    /\ nickname_role_db s' !! "X" = Some [5; 8].
Proof.
  exists (Store {[ "X" := [5; 8] ]} ∅
            (FileHolds (JObject [("X", JList [JInt 5; JInt (-3); JInt 8])]))
            [Ev (Print LogLoaded) None]).
  assert (load_database
            (Store {[ "Old" := [1] ]} ∅
               (FileHolds (JObject [("X", JList [JInt 5; JInt (-3); JInt 8])])) [])
          = Ret (Store {[ "X" := [5; 8] ]} ∅
                   (FileHolds (JObject [("X", JList [JInt 5; JInt (-3); JInt 8])]))
                   [Ev (Print LogLoaded) None])) as Hload
    by (vm_compute; reflexivity).
  split; [exact Hload|].
  refine (proj1 (proj2 (load_replaces_registry _
            [("X", JList [JInt 5; JInt (-3); JInt 8])] _ _ Hload))
            "X" [5; -3; 8] _).
  - reflexivity.
  - vm_compute. reflexivity.
Defined.

(** ** Trimming and decimal texts *)

Lemma all_chars_app p (a b : string) :
  Py.all_chars p (a +:+ b) = Py.all_chars p a && Py.all_chars p b.
Proof.
  induction a as [|c a IH]; [done|].
  rewrite app_String. simpl. by rewrite IH, andb_assoc.
Qed.

Lemma lstrip_whitespace (s : string) :
  Py.all_chars Py.is_space s = true -> Py.lstrip s = "".
Proof.
  induction s as [|c s IH]; [done|]. simpl.
  intros [Hc Hs]%andb_true_iff. rewrite Hc. auto.
Qed.

(** X17. Trimming twice is trimming once, and a text trims to the empty
    string exactly when it consists of whitespace only: a nickname is
    refused by [add_nickname] for being empty in that case and in no
    other. *)
Theorem strip_idempotent_and_empty (s : string) :
  Py.strip (Py.strip s) = Py.strip s
  /\ (Py.strip s = "" <-> Py.all_chars Py.is_space s = true).
Proof.
  destruct (strip_trimmed s) as (pre & post & Hs & Hpre & Hpost & Hstart & Hend).
  split; [by apply strip_fixed|]. split.
  - intros Hempty. rewrite Hempty in Hs. rewrite Hs, !all_chars_app, Hpre, Hpost.
    done.
  - intros Hall. unfold Py.strip. by rewrite lstrip_whitespace.
Qed.

Lemma string_of_uint_decimal (d : Decimal.uint) :
  Py.all_chars Py.is_decimal (NilEmpty.string_of_uint d) = true.
Proof.
  induction d; cbn [NilEmpty.string_of_uint Py.all_chars]; [done|..];
    by rewrite IHd.
Qed.

Lemma decimal_value_acc (d : Decimal.uint) (acc : positive) :
  Py.decimal_value (Z.pos acc) (NilEmpty.string_of_uint d)
  = Z.pos (Pos.of_uint_acc d acc).
Proof.
  revert acc. induction d; intros acc;
    cbn [NilEmpty.string_of_uint Py.decimal_value Pos.of_uint_acc]; [done|..];
    match goal with
    | |- Py.decimal_value ?z _ = _ =>
        let z' := eval cbn in z in change z with z'
    end; rewrite <- IHd; f_equal; lia.
Qed.

Lemma decimal_value_of_uint (d : Decimal.uint) :
  Py.decimal_value 0 (NilEmpty.string_of_uint d) = Z.of_N (Pos.of_uint d).
Proof.
  induction d; cbn [NilEmpty.string_of_uint Py.decimal_value Pos.of_uint];
    [done | exact IHd | ..];
    match goal with
    | |- Py.decimal_value ?z _ = _ =>
        let z' := eval vm_compute in z in change z with z'
    end; by rewrite decimal_value_acc.
Qed.

Lemma length_string_of_uint (d : Decimal.uint) :
  String.length (NilEmpty.string_of_uint d) = Decimal.nb_digits d.
Proof. induction d; simpl; congruence. Qed.

Lemma nb_digits_double (d : Decimal.uint) :
  (Decimal.nb_digits (Decimal.Little.double d) <= S (Decimal.nb_digits d))%nat
  /\ (Decimal.nb_digits (Decimal.Little.succ_double d) <= S (Decimal.nb_digits d))%nat.
Proof. induction d; simpl; [lia|..]; destruct IHd; lia. Qed.

Lemma nb_digits_to_little_uint (p : positive) :
  (Decimal.nb_digits (Pos.to_little_uint p) <= Pos.size_nat p)%nat.
Proof.
  induction p as [p IH|p IH|]; simpl; [| |lia].
  - pose proof (proj2 (nb_digits_double (Pos.to_little_uint p))). lia.
  - pose proof (proj1 (nb_digits_double (Pos.to_little_uint p))). lia.
Qed.

(** The decimal text of an id in the 64-bit range is far below the
    interpreter's digit limit. *)
Lemma length_str_of_int (z : Z) :
  0 <= z < 2 ^ 64 -> (String.length (Py.str_of_int z) <= 65)%nat.
Proof.
  intros [Hz Hlt]. unfold Py.str_of_int. destruct z as [|p|p]; [simpl; lia| |lia].
  simpl. unfold NilZero.string_of_uint.
  pose proof (Unsigned.to_uint_nonnil p) as Hnil.
  assert (String.length (NilEmpty.string_of_uint (Pos.to_uint p)) <= 65)%nat as Hlen.
  { rewrite length_string_of_uint. unfold Pos.to_uint.
    rewrite DecimalFacts.nb_digits_rev.
    pose proof (nb_digits_to_little_uint p).
    assert (Pos.size_nat p <= Pos.size_nat (2 ^ 64))%nat as Hsize
      by (apply Pos.size_nat_monotone; lia).
    change (Pos.size_nat (2 ^ 64)) with 65%nat in Hsize. lia. }
  by destruct (Pos.to_uint p).
Qed.

(** X18. The decimal text of a non-negative integer in the 64-bit range
    of role ids reads back as that integer, so the loader takes an id
    stored as a string of digits for the same id as the integer itself:
    the stored list [[5, "5"]] loads as [[5; 5]]. *)
Theorem decimal_text_loads_as_integer (z : Z) :
  0 <= z < 2 ^ 64 ->
  Py.int_of_str (Py.str_of_int z) = Some z
  /\ coerce_item (JStr (Py.str_of_int z)) = Ret (Some z)
  /\ coerce_list [JInt z; JStr (Py.str_of_int z)] = Ret [z; z].
Proof.
  intros Hrange. assert (0 <= z) as Hz by lia.
  assert (Py.int_of_str (Py.str_of_int z) = Some z) as Hint.
  { pose proof (length_str_of_int z Hrange) as Hlen.
    unfold Py.int_of_str, Py.int_max_str_digits.
    rewrite (leb_correct (String.length (Py.str_of_int z)) 4300) by lia.
    rewrite andb_true_r. clear Hlen Hrange.
    unfold Py.str_of_int. destruct z as [|p|p]; [done| |lia].
    simpl. unfold NilZero.string_of_uint.
    pose proof (Unsigned.to_uint_nonnil p) as Hnil.
    pose proof (Unsigned.of_to p) as Hof.
    pose proof (string_of_uint_decimal (Pos.to_uint p)) as Hdec.
    pose proof (decimal_value_of_uint (Pos.to_uint p)) as Hval.
    rewrite Hof in Hval.
    destruct (Pos.to_uint p); [done|..]; by rewrite Hdec, Hval. }
  assert (coerce_item (JStr (Py.str_of_int z)) = Ret (Some z)) as Hitem.
  { simpl. rewrite isdigit_str_of_int, Hint. apply Z.leb_le in Hz. by rewrite Hz. }
  split; [done|]. split; [done|].
  cbn [coerce_list]. rewrite Hitem.
  cbn [coerce_item]. rewrite isdigit_str_of_int. apply Z.leb_le in Hz. by rewrite Hz.
Qed.

Lemma decimal_text_loads_as_integer_witness :
  coerce_list [JInt 5; JStr (Py.str_of_int 5)] = Ret [5; 5].
Proof.
  refine (proj2 (proj2 (decimal_text_loads_as_integer 5 _))). lia.
Defined.

(** A text of digits longer than the interpreter's limit is refused by
    [int], and with it the whole load. *)
Lemma int_of_str_over_limit (s : string) :
  (Py.int_max_str_digits < String.length s)%nat -> Py.int_of_str s = None.
Proof.
  intros Hlen. unfold Py.int_of_str.
  rewrite (leb_correct_conv _ _ Hlen). by rewrite andb_false_r.
Qed.

(** ** Registration, then verification *)

(** X19. Register, then verify.  After an admin registered a role under a
    fresh nickname, a pending member of a guild that holds the role below
    the bot's top role, replying with any text that trims to the same
    nickname, is given exactly that role, when the platform calls return:
    the one [add_roles] call is for that member in that guild, with that
    role alone and the audit reason naming the nickname, and the one
    message delivered is the success message, to the author. *)
Theorem registered_nickname_verifies
    w1 w2 admin nickname role discord message s gid guild member :
  Py.strip nickname <> "" ->
  nickname_role_db s !! Py.strip nickname = None ->
  Py.strip (content message) = Py.strip nickname ->
  reply_context discord message s gid guild member ->
  get_role guild (role_id role) = Some role ->
  role_rank role < role_rank (guild_top_role guild) ->
  all_calls_return w2 ->
  exists s' evs,
    on_message w2 discord message (add_nickname w1 admin nickname role s).2
    = (Ret (Classified Success), s')
    /\ journal s' = journal (add_nickname w1 admin nickname role s).2 ++ evs
    /\ pending_verifications s' !! author_id message = None
    /\ role_assignments evs = [[role]]
    /\ messages evs = [VerificationSuccessful [role_name role]]
    /\ assignments evs =
       [(guild_id guild, author_id message, [role],
         "Verified via nickname: " +:+ Py.strip nickname)]
    /\ deliveries evs
       = [(author_id message, VerificationSuccessful [role_name role])].
Proof.
  intros Hkey Hfresh Htext [Hbot Hdm Hpend Hgid Hguild Hmember] Hrole Hrank Hw.
  pose proof (get_member_id _ _ _ Hmember) as Hmid.
  set (s1 := (add_nickname w1 admin nickname role s).2).
  assert (nickname_role_db s1 !! Py.strip (content message) = Some [role_id role])
    as Hentry.
  { unfold s1. rewrite Htext, add_nickname_db, Hfresh by done.
    apply lookup_insert_eq. }
  assert (pending_verifications s1 = pending_verifications s) as Hsame.
  { unfold s1. by destruct (add_nickname_store w1 admin nickname role s)
      as (r & db' & f & evs & -> & _). }
  assert (reply_context discord message s1 gid guild member) as Hctx
    by (split; try done; by rewrite Hsame).
  assert (assignable guild [role_id role] = [role]) as Ha.
  { rewrite assignable_cons, Hrole. unfold role_gt.
    apply Z.ltb_lt in Hrank. by rewrite Hrank. }
  assert (unknown_removed guild [role_id role] = []) as Hu
    by (by rewrite unknown_removed_cons, Hrole).
  pose proof (verify_resolved w2 guild member (author_id message) message s1
                [role_id role] (all_calls_notices w2 _ Hw) Hentry ltac:(done)) as Hv.
  rewrite Ha, Hu in Hv.
  rewrite (assign_roles_success w2 _ _ _ _ _ _ _ Hw), journalled_app in Hv.
  rewrite (on_message_of_verify w2 _ _ _ _ _ _ _ _ Hctx Hv).
  eexists _, _. split; [reflexivity|]. simpl. split; [reflexivity|].
  split; [apply lookup_delete_eq|].
  unfold resolution_events, role_gt. rewrite Hrole.
  apply Z.ltb_lt in Hrank. rewrite Hrank, Hmid, Htext. done.
Qed.

Lemma registered_nickname_verifies_witness :
  exists s' evs,
    on_message calm [Nest.guild] (Nest.reply "  Owl")
      (add_nickname calm "root" "Owl " Nest.pilot Nest.start).2
    = (Ret (Classified Success), s')
    /\ journal s' = journal (add_nickname calm "root" "Owl " Nest.pilot Nest.start).2 ++ evs
    /\ assignments evs = [(500, 7, [Nest.pilot], "Verified via nickname: Owl")].
Proof.
  destruct (registered_nickname_verifies calm calm "root" "Owl " Nest.pilot
              [Nest.guild] (Nest.reply "  Owl") Nest.start 500 Nest.guild Nest.ann)
    as (s' & evs & Hrun & Hj & _ & _ & _ & Hroles & _).
  - discriminate.
  - reflexivity.
  - reflexivity.
  - split; (reflexivity || lia).
  - reflexivity.
  - simpl. lia.
  - intros tr c. reflexivity.
  - exists s', evs. split; [exact Hrun|]. split; [exact Hj | exact Hroles].
Defined.

(** ** The tracker *)

(** X20. The tracker never comes to hold the guild id 0 unless a join
    hands it one: joins from guilds with a non-zero id, replies,
    registrations and loads all keep every stored guild id non-zero, so
    the early return of [on_message] on a falsy guild id stays out of
    reach. *)
Theorem tracker_stays_nonzero s :
  tracker_nonzero s ->
  (forall w member guild,
      guild_id guild <> 0 -> tracker_nonzero (on_member_join w member guild s).2)
  /\ (forall w discord message, tracker_nonzero (on_message w discord message s).2)
  /\ (forall w admin nickname role, tracker_nonzero (add_nickname w admin nickname role s).2)
  /\ (forall s', load_database s = Ret s' -> tracker_nonzero s').
Proof.
  intros Hs. split; [|split; [|split]].
  - intros w member guild Hgid. destruct (member_bot member) eqn:Hbot.
    + unfold on_member_join. rewrite Hbot. by run.
    + destruct (on_member_join_human w member guild s Hbot) as (evs & -> & _).
      intros u g. simpl. destruct (decide (member_id member = u)) as [->|Hne].
      * rewrite lookup_insert_eq. by intros [= <-].
      * rewrite lookup_insert_ne by done. apply Hs.
  - intros w discord message.
    destruct (on_message_cases w discord message s)
      as (evs & [(p & -> & _) | [(p & -> & _) | (e & ->)]]); simpl; try done.
    intros u g Hu. simpl in Hu. apply lookup_delete_Some in Hu as [_ Hu]. eauto.
  - intros w admin nickname role.
    by destruct (add_nickname_store w admin nickname role s)
      as (r & db' & f & evs & -> & _).
  - intros s' Hload u g.
    destruct (load_keeps_file_and_tracker s s' Hload) as [_ ->]. apply Hs.
Qed.

Lemma tracker_stays_nonzero_witness :
  tracker_nonzero (on_message calm [Nest.guild] (Nest.reply "Falcon") Nest.start).2.
Proof.
  refine (proj1 (proj2 (tracker_stays_nonzero Nest.start _)) calm [Nest.guild]
            (Nest.reply "Falcon")).
  intros u g Hu. unfold Nest.start in Hu. simpl in Hu.
  apply lookup_singleton_Some in Hu as [_ <-]. lia.
Defined.
